(** * Proyecto-F: keypad-gated environmental monitor (Documentacion.cpp)

    A shallow embedding of the Arduino sketch: the global variables are a
    record, every call to a peripheral driver either consumes the next value
    of an input stream (keypad, DHT sensor, ADC, digital pins, millis) or
    appends an event to the output trace (LCD, LEDs, buzzer, delay).  The
    program text is written in a small state monad so that each definition
    reads like the function it embeds. *)

From Stdlib Require Import ZArith List String Ascii Bool Lia.
From Stdlib Require Import Floats.SpecFloat.
Import ListNotations.

Local Open Scope Z_scope.
Local Open Scope string_scope.

(** ** Machine arithmetic of the target (AVR: 16-bit [int], 32-bit
    [unsigned long], [float] = [double] = IEEE binary32) *)

Module Int16.
Definition modulus : Z := 2 ^ 16.
Definition min_signed : Z := - 2 ^ 15.
Definition max_signed : Z := 2 ^ 15 - 1.
(** two's-complement wrap-around of an [int] result *)
Definition wrap (z : Z) : Z := (z + 2 ^ 15) mod modulus - 2 ^ 15.
End Int16.

Module ULong.
Definition modulus : Z := 2 ^ 32.
Definition wrap (z : Z) : Z := z mod modulus.
(** [a - b] on [unsigned long] *)
Definition sub (a b : Z) : Z := wrap (a - b).
End ULong.

Module F32.
Definition prec : Z := 24.
Definition emax : Z := 128.
Definition float : Type := spec_float.
Definition valid (x : float) : bool := valid_binary prec emax x.
Definition of_Z (z : Z) : float := binary_normalize prec emax z 0 false.
Definition mul : float -> float -> float := SFmul prec emax.
Definition div : float -> float -> float := SFdiv prec emax.
Definition sub : float -> float -> float := SFsub prec emax.
(** the four ordered comparisons of C++; all are false on NaN *)
Definition lt (x y : float) : bool := SFltb x y.
Definition gt (x y : float) : bool := SFltb y x.
Definition le (x y : float) : bool := SFleb x y.
Definition ge (x y : float) : bool := SFleb y x.
Definition nan : float := S754_nan.
End F32.

Definition float : Type := F32.float.

(** ** Peripheral events and input streams *)

Inductive event : Type :=
| LcdBegin (cols rows : Z)
| LcdClear
| LcdSetCursor (col row : Z)
| LcdPrint (s : string)
| LcdPrintInt (n : Z)
| LcdPrintFloat (f : float)
| PinMode (pin : Z) (output : bool)
| DhtBegin
| DigitalWrite (pin : Z) (level : Z)
| Tone (pin freq dur : Z)
| NoTone (pin : Z)
| Delay (ms : Z).

(** An event writes to the display when it is one of the LCD calls. *)
Definition is_lcd (e : event) : bool :=
  match e with
  | LcdBegin _ _ | LcdClear | LcdSetCursor _ _
  | LcdPrint _ | LcdPrintInt _ | LcdPrintFloat _ => true
  | _ => false
  end.

(** The environment: the n-th answer of each driver call. *)
Record Env : Type := mkEnv {
  env_getKey : nat -> ascii;            (* keypad.getKey(), NO_KEY = '\0' *)
  env_readHumidity : nat -> float;      (* dht.readHumidity() *)
  env_readTemperature : nat -> float;   (* dht.readTemperature() *)
  env_analogRead : nat -> Z;            (* analogRead(PHOTO_RESISTOR_PIN) *)
  env_digitalRead : nat -> Z -> Z;      (* digitalRead(pin) *)
  env_millis : nat -> Z                 (* millis() *)
}.

(** The sketch uses [RL10], [GAMMA] and libm's [pow], none of which is
    declared in the file: they are parameters of the model. *)
Record Calib : Type := mkCalib {
  RL10 : float;
  GAMMA : float;
  pow : float -> float -> float
}.

(** ** Program state: the globals of the sketch, the cursors into the input
    streams and the output trace (most recent event first) *)

Record Sys : Type := mkSys {
  inputPassword : string;
  attemptCount : Z;
  currentState : Z;
  stateChangeTime : Z;
  nKey : nat;
  nHum : nat;
  nTemp : nat;
  nAnalog : nat;
  nDigital : nat;
  nMillis : nat;
  out : list event
}.

Definition set_inputPassword (v : string) (s : Sys) : Sys :=
  mkSys v (attemptCount s) (currentState s) (stateChangeTime s)
        (nKey s) (nHum s) (nTemp s) (nAnalog s) (nDigital s) (nMillis s) (out s).
Definition set_attemptCount (v : Z) (s : Sys) : Sys :=
  mkSys (inputPassword s) v (currentState s) (stateChangeTime s)
        (nKey s) (nHum s) (nTemp s) (nAnalog s) (nDigital s) (nMillis s) (out s).
Definition set_currentState (v : Z) (s : Sys) : Sys :=
  mkSys (inputPassword s) (attemptCount s) v (stateChangeTime s)
        (nKey s) (nHum s) (nTemp s) (nAnalog s) (nDigital s) (nMillis s) (out s).
Definition set_stateChangeTime (v : Z) (s : Sys) : Sys :=
  mkSys (inputPassword s) (attemptCount s) (currentState s) v
        (nKey s) (nHum s) (nTemp s) (nAnalog s) (nDigital s) (nMillis s) (out s).
Definition set_nKey (v : nat) (s : Sys) : Sys :=
  mkSys (inputPassword s) (attemptCount s) (currentState s) (stateChangeTime s)
        v (nHum s) (nTemp s) (nAnalog s) (nDigital s) (nMillis s) (out s).
Definition set_nHum (v : nat) (s : Sys) : Sys :=
  mkSys (inputPassword s) (attemptCount s) (currentState s) (stateChangeTime s)
        (nKey s) v (nTemp s) (nAnalog s) (nDigital s) (nMillis s) (out s).
Definition set_nTemp (v : nat) (s : Sys) : Sys :=
  mkSys (inputPassword s) (attemptCount s) (currentState s) (stateChangeTime s)
        (nKey s) (nHum s) v (nAnalog s) (nDigital s) (nMillis s) (out s).
Definition set_nAnalog (v : nat) (s : Sys) : Sys :=
  mkSys (inputPassword s) (attemptCount s) (currentState s) (stateChangeTime s)
        (nKey s) (nHum s) (nTemp s) v (nDigital s) (nMillis s) (out s).
Definition set_nDigital (v : nat) (s : Sys) : Sys :=
  mkSys (inputPassword s) (attemptCount s) (currentState s) (stateChangeTime s)
        (nKey s) (nHum s) (nTemp s) (nAnalog s) v (nMillis s) (out s).
Definition set_nMillis (v : nat) (s : Sys) : Sys :=
  mkSys (inputPassword s) (attemptCount s) (currentState s) (stateChangeTime s)
        (nKey s) (nHum s) (nTemp s) (nAnalog s) (nDigital s) v (out s).
Definition set_out (v : list event) (s : Sys) : Sys :=
  mkSys (inputPassword s) (attemptCount s) (currentState s) (stateChangeTime s)
        (nKey s) (nHum s) (nTemp s) (nAnalog s) (nDigital s) (nMillis s) v.

(** ** The state monad of the sketch *)

Definition M (A : Type) : Type := Sys -> A * Sys.

Definition ret {A : Type} (a : A) : M A := fun s => (a, s).
Definition bind {A B : Type} (m : M A) (k : A -> M B) : M B :=
  fun s => let (a, s') := m s in k a s'.
Definition exec {A : Type} (m : M A) (s : Sys) : Sys := snd (m s).
Definition skip : M unit := ret tt.
Definition emit (e : event) : M unit := fun s => (tt, set_out (e :: out s) s).
Definition load {A : Type} (field : Sys -> A) : M A := fun s => (field s, s).
Definition store {A : Type} (setter : A -> Sys -> Sys) (v : A) : M unit :=
  fun s => (tt, setter v s).

Declare Scope sketch_scope.
Delimit Scope sketch_scope with sketch.
Notation "x <- m ;; k" := (bind m (fun x => k))
  (at level 61, m at next level, right associativity) : sketch_scope.
Notation "m ;; k" := (bind m (fun _ => k))
  (at level 61, right associativity) : sketch_scope.
Local Open Scope sketch_scope.

(** ** Constants of the sketch *)

Definition LED_GREEN_PIN : Z := 9.
Definition LED_RED_PIN : Z := 10.
Definition LED_BLUE_PIN : Z := 8.
Definition BUZZER_PIN : Z := 6.
Definition PHOTO_RESISTOR_PIN : Z := 54.   (* A0 on the Mega *)
Definition INFRARED_PIN : Z := 14.
Definition HALL_PIN : Z := 15.
Definition HIGH : Z := 1.
Definition LOW : Z := 0.

Definition CORRECT_PASSWORD : string := "0690".
Definition MAX_ATTEMPTS : Z := 3.

(** the names the specification gives to the values of [currentState] *)
Definition Locked : Z := 0.
Definition Environmental : Z := 1.
Definition EventsLight : Z := 2.
Definition Alert : Z := 3.
Definition Alarm : Z := 4.
Definition Infrared : Z := 5.
Definition Hall : Z := 6.

(** float literals, in canonical binary32 form *)
Definition f5 : float := Eval cbv in F32.of_Z 5.
Definition f10 : float := Eval cbv in F32.of_Z 10.
Definition f40 : float := Eval cbv in F32.of_Z 40.
Definition f60 : float := Eval cbv in F32.of_Z 60.
Definition f200 : float := Eval cbv in F32.of_Z 200.
Definition f700 : float := Eval cbv in F32.of_Z 700.
Definition f1 : float := Eval cbv in F32.of_Z 1.
Definition f1000 : float := Eval cbv in F32.of_Z 1000.
Definition f1024 : float := Eval cbv in F32.of_Z 1024.
Definition f2000 : float := Eval cbv in F32.of_Z 2000.

(** the state before [setup] runs: the initialisers of the globals *)
Definition initial : Sys :=
  mkSys "" 0 0 0 0%nat 0%nat 0%nat 0%nat 0%nat 0%nat [].

(** ** Whole-number readings

    The thresholds are float constants; on whole readings from -100 to 200
    the float comparisons of the sketch can be checked against the integer
    ones. *)

Definition whole_readings : list Z :=
  map (fun n => Z.of_nat n - 100) (seq 0 301).

Definition thresholds_agree (z : Z) : bool :=
  F32.valid (F32.of_Z z) &&
  Bool.eqb (F32.lt (F32.of_Z z) f10) (z <? 10)%Z &&
  Bool.eqb (F32.gt (F32.of_Z z) f40) (z >? 40)%Z &&
  Bool.eqb (F32.lt (F32.of_Z z) f5) (z <? 5)%Z &&
  Bool.eqb (F32.gt (F32.of_Z z) f60) (z >? 60)%Z &&
  Bool.eqb (F32.ge (F32.of_Z z) f10) (z >=? 10)%Z &&
  Bool.eqb (F32.le (F32.of_Z z) f40) (z <=? 40)%Z &&
  Bool.eqb (F32.ge (F32.of_Z z) f5) (z >=? 5)%Z &&
  Bool.eqb (F32.le (F32.of_Z z) f60) (z <=? 60)%Z.

(** ** Concrete environments, used to run the sketch on examples *)

(** a keypad that delivers [keys] and then stays silent, a DHT sensor that
    delivers the given readings and then fails (NaN), an ADC that delivers
    [raws] and then 0, a clock that delivers [clock] and then 0 *)
Definition script (keys : list ascii) (temps hums : list float)
           (raws clock : list Z) : Env :=
  mkEnv (fun n => nth n keys "000"%char)
        (fun n => nth n hums F32.nan)
        (fun n => nth n temps F32.nan)
        (fun n => nth n raws 0)
        (fun _ _ => LOW)
        (fun n => nth n clock 0).

(** a calibration whose [pow] is the first projection, so that the
    "lux" of a raw sample is [RL10 * 1000 * 10 / resistance] *)
Definition cal_demo : Calib := mkCalib f10 f1 (fun x _ => x).

(** ** The sketch *)

Section Sketch.

Variable env : Env.
Variable cal : Calib.

(** *** Driver calls *)

Definition keypad_getKey : M ascii :=
  fun s => (env_getKey env (nKey s), set_nKey (S (nKey s)) s).
Definition dht_readHumidity : M float :=
  fun s => (env_readHumidity env (nHum s), set_nHum (S (nHum s)) s).
Definition dht_readTemperature : M float :=
  fun s => (env_readTemperature env (nTemp s), set_nTemp (S (nTemp s)) s).
Definition analogRead (pin : Z) : M Z :=
  fun s => (env_analogRead env (nAnalog s), set_nAnalog (S (nAnalog s)) s).
Definition digitalRead (pin : Z) : M Z :=
  fun s => (env_digitalRead env (nDigital s) pin, set_nDigital (S (nDigital s)) s).
Definition millis : M Z :=
  fun s => (ULong.wrap (env_millis env (nMillis s)), set_nMillis (S (nMillis s)) s).

Definition lcd_begin (c r : Z) : M unit := emit (LcdBegin c r).
Definition lcd_clear : M unit := emit LcdClear.
Definition lcd_setCursor (c r : Z) : M unit := emit (LcdSetCursor c r).
Definition lcd_print (t : string) : M unit := emit (LcdPrint t).
Definition lcd_printInt (n : Z) : M unit := emit (LcdPrintInt n).
Definition lcd_printFloat (f : float) : M unit := emit (LcdPrintFloat f).
Definition pinMode (pin : Z) (output : bool) : M unit := emit (PinMode pin output).
Definition digitalWrite (pin level : Z) : M unit := emit (DigitalWrite pin level).
Definition tone (pin freq dur : Z) : M unit := emit (Tone pin freq dur).
Definition noTone (pin : Z) : M unit := emit (NoTone pin).
Definition delay (ms : Z) : M unit := emit (Delay ms).

(** [for (int i = 0; i < n; i++) body] with a body that does not use [i] *)
Fixpoint repeat_n (n : nat) (body : M unit) : M unit :=
  match n with
  | O => skip
  | S n' => body ;; repeat_n n' body
  end.

(** *** Helpers: getAsterisks, reset, alarmSound, welcomeTone *)

Fixpoint asterisks (n : nat) (acc : string) : string :=
  match n with
  | O => acc
  | S n' => asterisks n' (acc ++ "*")
  end.

Definition getAsterisks (length : Z) : string := asterisks (Z.to_nat length) "".

Definition reset : M unit :=
  store set_inputPassword "" ;;
  store set_attemptCount 0 ;;
  lcd_clear ;;
  lcd_print "Ingrese la clave:".

Definition alarmSound : M unit :=
  repeat_n 5 (tone BUZZER_PIN 1000 250 ;; delay 250 ;;
              tone BUZZER_PIN 500 250 ;; delay 250) ;;
  noTone BUZZER_PIN.

Definition welcomeTone : M unit :=
  tone BUZZER_PIN 262 500 ;; delay 500 ;;
  tone BUZZER_PIN 330 500 ;; delay 500 ;;
  tone BUZZER_PIN 392 500 ;; delay 500 ;;
  noTone BUZZER_PIN.

Definition setup : M unit :=
  lcd_begin 16 2 ;;
  pinMode LED_GREEN_PIN true ;;
  pinMode LED_RED_PIN true ;;
  pinMode LED_BLUE_PIN true ;;
  pinMode BUZZER_PIN true ;;
  pinMode PHOTO_RESISTOR_PIN false ;;
  pinMode INFRARED_PIN false ;;
  pinMode HALL_PIN false ;;
  emit DhtBegin ;;
  lcd_print "Ingrese la clave:".

(** *** loop(): the keypad handler (lines 161-204) *)

Definition NO_KEY : ascii := "000"%char.

(** the '#' branch *)
Definition onSubmit : M unit :=
  pw <- load inputPassword ;;
  if (String.length pw =? 4)%nat && (pw =? CORRECT_PASSWORD)%string then
    lcd_clear ;;
    lcd_print "Bienvenido" ;;
    digitalWrite LED_GREEN_PIN HIGH ;;
    welcomeTone ;;
    delay 1000 ;;
    digitalWrite LED_GREEN_PIN LOW ;;
    store set_currentState 1 ;;
    now <- millis ;;
    store set_stateChangeTime now
  else
    n <- load attemptCount ;;
    store set_attemptCount (Int16.wrap (n + 1)) ;;
    lcd_clear ;;
    lcd_print "Error intento " ;;
    n' <- load attemptCount ;;
    lcd_printInt n' ;;
    store set_inputPassword "" ;;
    n'' <- load attemptCount ;;
    if n'' >=? MAX_ATTEMPTS then
      lcd_clear ;;
      lcd_print "Bloqueado" ;;
      alarmSound ;;
      digitalWrite LED_RED_PIN HIGH ;;
      delay 2000 ;;
      digitalWrite LED_RED_PIN LOW ;;
      reset
    else skip.

(** the '*' branch *)
Definition onClear : M unit :=
  store set_inputPassword "" ;;
  lcd_clear ;;
  lcd_print "Ingrese la clave:".

(** the final [else] branch: every other key *)
Definition onDigit (key : ascii) : M unit :=
  pw <- load inputPassword ;;
  if (String.length pw <? 4)%nat then
    store set_inputPassword (pw ++ String key "") ;;
    lcd_setCursor 0 1 ;;
    pw' <- load inputPassword ;;
    lcd_print (getAsterisks (Z.of_nat (String.length pw')))
  else skip.

Definition onKey (key : ascii) : M unit :=
  if (key =? NO_KEY)%char then skip
  else if (key =? "#")%char then onSubmit
  else if (key =? "*")%char then onClear
  else onDigit key.

Definition loop : M unit :=
  key <- keypad_getKey ;;
  onKey key.

(** *** The state handlers *)

(** the alarm condition of monitoreoAmbiental (line 260) *)
Definition out_of_range (t h : float) : bool :=
  F32.lt t f10 || F32.gt t f40 || F32.lt h f5 || F32.gt h f60.

(** the recovery condition of alarma (line 422) *)
Definition in_range (t h : float) : bool :=
  F32.ge t f10 && F32.le t f40 && F32.ge h f5 && F32.le h f60.

Definition monitoreoAmbiental : M unit :=
  h <- dht_readHumidity ;;
  t <- dht_readTemperature ;;
  if out_of_range t h then
    store set_currentState 4 ;;
    now <- millis ;;
    store set_stateChangeTime now
  else
    now <- millis ;;
    sct <- load stateChangeTime ;;
    if ULong.sub now sct >=? 4000 then
      lcd_clear ;;
      lcd_print "Moni Ambiental" ;;
      lcd_setCursor 0 1 ;;
      lcd_print "T:" ;;
      lcd_printFloat t ;;
      lcd_print "C H:" ;;
      lcd_printFloat h ;;
      store set_currentState 2 ;;
      now' <- millis ;;
      store set_stateChangeTime now'
    else skip.

(** lines 305-308 and 372-375: the photoresistor reading turned into lux *)
Definition lux_of (analogValue : Z) : float :=
  let voltage := F32.mul (F32.div (F32.of_Z analogValue) f1024) f5 in
  let resistance :=
    F32.div (F32.mul f2000 voltage) (F32.sub f1 (F32.div voltage f5)) in
  pow cal
      (F32.div (F32.mul (F32.mul (RL10 cal) f1000) (pow cal f10 (GAMMA cal)))
               resistance)
      (F32.div f1 (GAMMA cal)).

Definition monitorEventos : M unit :=
  analogValue <- analogRead PHOTO_RESISTOR_PIN ;;
  let lux := lux_of analogValue in
  now <- millis ;;
  sct <- load stateChangeTime ;;
  if ULong.sub now sct >=? 3000 then
    lcd_clear ;;
    lcd_print "Moni Eventos" ;;
    lcd_setCursor 0 1 ;;
    lcd_print "Luz : " ;;
    lcd_printFloat lux ;;
    if F32.gt lux f700 || F32.lt lux f200 then
      store set_currentState 3 ;;
      now' <- millis ;;
      store set_stateChangeTime now'
    else
      store set_currentState 1 ;;
      now' <- millis ;;
      store set_stateChangeTime now'
  else skip.

Definition monitoreoInfrarrojo : M unit :=
  v <- digitalRead INFRARED_PIN ;;
  if (v =? HIGH)%Z then
    lcd_clear ;;
    lcd_print "Infrarrojo Activo" ;;
    digitalWrite LED_BLUE_PIN HIGH ;;
    alarmSound ;;
    delay 1000 ;;
    digitalWrite LED_BLUE_PIN LOW ;;
    store set_currentState 2 ;;
    now <- millis ;;
    store set_stateChangeTime now
  else skip.

Definition monitoreoHall : M unit :=
  v <- digitalRead HALL_PIN ;;
  if (v =? HIGH)%Z then
    lcd_clear ;;
    lcd_print "Hall Activo" ;;
    digitalWrite LED_BLUE_PIN HIGH ;;
    alarmSound ;;
    delay 1000 ;;
    digitalWrite LED_BLUE_PIN LOW ;;
    store set_currentState 2 ;;
    now <- millis ;;
    store set_stateChangeTime now
  else skip.

Definition alerta : M unit :=
  analogValue <- analogRead PHOTO_RESISTOR_PIN ;;
  let lux := lux_of analogValue in
  now <- millis ;;
  sct <- load stateChangeTime ;;
  if ULong.sub now sct >=? 3000 then
    lcd_clear ;;
    lcd_print "Alerta!" ;;
    lcd_setCursor 0 1 ;;
    (if F32.gt lux f700 then
       lcd_print "Luz: Alta" ;;
       digitalWrite LED_BLUE_PIN HIGH ;;
       alarmSound ;;
       delay 1000 ;;
       digitalWrite LED_BLUE_PIN LOW
     else if F32.lt lux f200 then
       lcd_print "Luz: Baja" ;;
       digitalWrite LED_BLUE_PIN HIGH ;;
       alarmSound ;;
       delay 1000 ;;
       digitalWrite LED_BLUE_PIN LOW
     else skip) ;;
    store set_currentState 2 ;;
    now' <- millis ;;
    store set_stateChangeTime now'
  else skip.

(** *** alarma(): the blocking loop

    [while (true)] has no bound, so the loop is run on fuel: [None] means
    the loop is still spinning after [fuel] pairs of readings. *)

Definition alarma_prologue : M unit :=
  digitalWrite LED_RED_PIN HIGH ;;
  alarmSound ;;
  lcd_clear ;;
  lcd_print "ALERTA CRITICA!" ;;
  lcd_setCursor 0 1 ;;
  lcd_print "T o H fuera de" ;;
  lcd_setCursor 0 2 ;;
  lcd_print "rango seguro!".

(** the body of the [if] at line 422, which ends in [break] *)
Definition alarma_exit : M unit :=
  digitalWrite LED_RED_PIN LOW ;;
  noTone BUZZER_PIN ;;
  store set_currentState 1 ;;
  now <- millis ;;
  store set_stateChangeTime now.

(** one iteration's two sensor reads *)
Definition alarma_read : M (float * float) :=
  h <- dht_readHumidity ;;
  t <- dht_readTemperature ;;
  ret (t, h).

Fixpoint alarma_loop (fuel : nat) (s : Sys) : option Sys :=
  match fuel with
  | O => None
  | S fuel' =>
      let (th, s') := alarma_read s in
      if in_range (fst th) (snd th) then Some (exec alarma_exit s')
      else alarma_loop fuel' s'
  end.

Definition alarma (fuel : nat) (s : Sys) : option Sys :=
  alarma_loop fuel (exec alarma_prologue s).

(** *** The dispatch switch (lines 207-227)

    In the file the switch follows the closing brace of [loop]; it is the
    second half of every cycle of the sketch. *)

Definition dispatch (fuel : nat) (s : Sys) : option Sys :=
  match currentState s with
  | 1 => Some (exec monitoreoAmbiental s)
  | 2 => Some (exec monitorEventos s)
  | 3 => Some (exec alerta s)
  | 4 => alarma fuel s
  | 5 => Some (exec monitoreoInfrarrojo s)
  | 6 => Some (exec monitoreoHall s)
  | _ => Some s
  end.

(** one cycle: the keypad handler, then the dispatch *)
Definition tick (fuel : nat) (s : Sys) : option Sys :=
  dispatch fuel (exec loop s).

(** Every state the sketch can be in: start from the initialisers, run
    [setup], then any number of [loop] bodies and dispatches. *)
Inductive reachable : Sys -> Prop :=
| reach_setup : reachable (exec setup initial)
| reach_loop : forall s, reachable s -> reachable (exec loop s)
| reach_dispatch : forall fuel s s',
    reachable s -> dispatch fuel s = Some s' -> reachable s'.

(** typing a list of keys, one [loop] body per key *)
Fixpoint press (keys : list ascii) (s : Sys) : Sys :=
  match keys with
  | [] => s
  | k :: keys' => press keys' (exec (onKey k) s)
  end.

(** *** What the handlers are expected to emit *)

(** the events of the welcome sequence, the error message and the lockout
    sequence, oldest first *)
Definition welcome_events : list event :=
  [LcdClear; LcdPrint "Bienvenido"; DigitalWrite LED_GREEN_PIN HIGH;
   Tone BUZZER_PIN 262 500; Delay 500; Tone BUZZER_PIN 330 500; Delay 500;
   Tone BUZZER_PIN 392 500; Delay 500; NoTone BUZZER_PIN;
   Delay 1000; DigitalWrite LED_GREEN_PIN LOW].

Definition error_events (n : Z) : list event :=
  [LcdClear; LcdPrint "Error intento "; LcdPrintInt n].

Definition alarm_pattern : list event :=
  [Tone BUZZER_PIN 1000 250; Delay 250; Tone BUZZER_PIN 500 250; Delay 250].

Definition alarmSound_events : list event :=
  alarm_pattern ++ alarm_pattern ++ alarm_pattern ++ alarm_pattern ++
  alarm_pattern ++ [NoTone BUZZER_PIN].

Definition lockout_events : list event :=
  [LcdClear; LcdPrint "Bloqueado"] ++ alarmSound_events ++
  [DigitalWrite LED_RED_PIN HIGH; Delay 2000; DigitalWrite LED_RED_PIN LOW;
   LcdClear; LcdPrint "Ingrese la clave:"].

(** the test of line 166 *)
Definition pin_ok (pw : string) : bool :=
  (String.length pw =? 4)%nat && (pw =? CORRECT_PASSWORD)%string.

Definition is_digit (c : ascii) : bool :=
  (48 <=? nat_of_ascii c)%nat && (nat_of_ascii c <=? 57)%nat.

Definition eventos_events (lux : float) : list event :=
  [LcdClear; LcdPrint "Moni Eventos"; LcdSetCursor 0 1; LcdPrint "Luz : ";
   LcdPrintFloat lux].

Definition alarma_events : list event :=
  [DigitalWrite LED_RED_PIN HIGH] ++ alarmSound_events ++
  [LcdClear; LcdPrint "ALERTA CRITICA!"; LcdSetCursor 0 1;
   LcdPrint "T o H fuera de"; LcdSetCursor 0 2; LcdPrint "rango seguro!"].

(** the k-th pair of readings taken after cursors [nt] and [nh] satisfies
    the recovery condition *)
Definition recovered (nt nh k : nat) : bool :=
  in_range (env_readTemperature env (nt + k)) (env_readHumidity env (nh + k)).

(** the five values of [currentState] that the sketch ever assigns or
    starts from *)
Definition live_state (z : Z) : Prop :=
  z = Locked \/ z = Environmental \/ z = EventsLight \/ z = Alert \/ z = Alarm.

(** the state in which the loop leaves after [k] failed iterations and one
    successful one *)
Definition alarma_left (s : Sys) (k : nat) : Sys :=
  mkSys (inputPassword s) (attemptCount s) 1
        (ULong.wrap (env_millis env (nMillis s)))
        (nKey s) (nHum s + S k) (nTemp s + S k) (nAnalog s) (nDigital s)
        (S (nMillis s))
        (NoTone BUZZER_PIN :: DigitalWrite LED_RED_PIN LOW :: out s).

(** the invariant of the access session *)
Definition gate_ok (s : Sys) : Prop :=
  0 <= attemptCount s < MAX_ATTEMPTS /\
  (String.length (inputPassword s) <= 4)%nat.

(** *** Further vocabulary for the properties of the handlers *)

(** [n] asterisks *)
Fixpoint stars (n : nat) : string :=
  match n with
  | O => ""
  | S n' => String "*" (stars n')
  end.

(** a key that reaches the final [else] of the keypad handler *)
Definition entry_key (k : ascii) : Prop :=
  k <> NO_KEY /\ k <> "#"%char /\ k <> "*"%char.

(** everything but the candidate PIN and the trace is the same *)
Definition same_but_pin (s s' : Sys) : Prop :=
  attemptCount s' = attemptCount s /\
  currentState s' = currentState s /\
  stateChangeTime s' = stateChangeTime s /\
  nKey s' = nKey s /\ nHum s' = nHum s /\ nTemp s' = nTemp s /\
  nAnalog s' = nAnalog s /\ nDigital s' = nDigital s /\
  nMillis s' = nMillis s.


Definition ambiental_events (t h : float) : list event :=
  [LcdClear; LcdPrint "Moni Ambiental"; LcdSetCursor 0 1; LcdPrint "T:";
   LcdPrintFloat t; LcdPrint "C H:"; LcdPrintFloat h].

(** blue LED on, alarm pattern, one second, blue LED off *)
Definition blue_alarm_events : list event :=
  [DigitalWrite LED_BLUE_PIN HIGH] ++ alarmSound_events ++
  [Delay 1000; DigitalWrite LED_BLUE_PIN LOW].

Definition alerta_events (lux : float) : list event :=
  [LcdClear; LcdPrint "Alerta!"; LcdSetCursor 0 1] ++
  (if F32.gt lux f700 then LcdPrint "Luz: Alta" :: blue_alarm_events
   else if F32.lt lux f200 then LcdPrint "Luz: Baja" :: blue_alarm_events
   else []).

Definition sensor_events (msg : string) : list event :=
  [LcdClear; LcdPrint msg] ++ blue_alarm_events.

(** the state timer holds an [unsigned long] *)
Definition timer_ok (s : Sys) : Prop := 0 <= stateChangeTime s < ULong.modulus.

(** [s'] is [s] some loop bodies and dispatches later *)
Inductive evolves (s : Sys) : Sys -> Prop :=
| ev_here : evolves s s
| ev_loop : forall s', evolves s s' -> evolves s (exec loop s')
| ev_dispatch : forall fuel s' s'',
    evolves s s' -> dispatch fuel s' = Some s'' -> evolves s s''.

(** dispatches in a row, with no key handled in between *)
Fixpoint dispatches (fuels : list nat) (s : Sys) : option Sys :=
  match fuels with
  | [] => Some s
  | fuel :: fuels' =>
      match dispatch fuel s with
      | Some s' => dispatches fuels' s'
      | None => None
      end
  end.

(** the light is out of range at every sample the ADC will deliver *)
Definition light_always_bad : Prop :=
  forall n, let lux := lux_of (env_analogRead env n) in
            F32.gt lux f700 || F32.lt lux f200 = true.

(** the first two lines of the lux computation (lines 306-307) *)
Definition voltage_of (analogValue : Z) : float :=
  F32.mul (F32.div (F32.of_Z analogValue) f1024) f5.

Definition resistance_of (analogValue : Z) : float :=
  let voltage := voltage_of analogValue in
  F32.div (F32.mul f2000 voltage) (F32.sub f1 (F32.div voltage f5)).

Definition is_finite_positive (x : float) : bool :=
  match x with
  | S754_finite false _ _ => F32.valid x
  | _ => false
  end.

(** the samples a 10-bit ADC delivers *)
Definition adc_samples : list Z := map Z.of_nat (seq 0 1024).

Definition resistance_check (a : Z) : bool :=
  if (a =? 0)%Z then
    match resistance_of a with S754_zero false => true | _ => false end
  else is_finite_positive (resistance_of a).

(** the numerator of the quotient of line 308 *)
Definition lux_numerator : float :=
  F32.mul (F32.mul (RL10 cal) f1000) (pow cal f10 (GAMMA cal)).

(** ** Properties *)

(** *** Unfolding the monad *)

Lemma loop_onKey (s : Sys) :
  exec loop s = exec (onKey (env_getKey env (nKey s))) (set_nKey (S (nKey s)) s).
Proof. reflexivity. Qed.

(** *** The '#' key *)

Lemma onSubmit_ok (s : Sys) :
  pin_ok (inputPassword s) = true ->
  exec onSubmit s =
  mkSys (inputPassword s) (attemptCount s) 1
        (ULong.wrap (env_millis env (nMillis s)))
        (nKey s) (nHum s) (nTemp s) (nAnalog s) (nDigital s) (S (nMillis s))
        (rev welcome_events ++ out s).
Proof.
  unfold pin_ok; intros H.
  unfold onSubmit, exec, bind, load; cbn. rewrite H. reflexivity.
Qed.

Lemma onSubmit_fail (s : Sys) :
  pin_ok (inputPassword s) = false ->
  Int16.wrap (attemptCount s + 1) < MAX_ATTEMPTS ->
  exec onSubmit s =
  mkSys "" (Int16.wrap (attemptCount s + 1)) (currentState s) (stateChangeTime s)
        (nKey s) (nHum s) (nTemp s) (nAnalog s) (nDigital s) (nMillis s)
        (rev (error_events (Int16.wrap (attemptCount s + 1))) ++ out s).
Proof.
  unfold pin_ok; intros H Hlt.
  unfold onSubmit, exec, bind, load; cbn. rewrite H. cbn.
  destruct (Z.geb_spec (Int16.wrap (attemptCount s + 1)) MAX_ATTEMPTS) as [Hge|_];
    [lia | reflexivity].
Qed.

Lemma onSubmit_lockout (s : Sys) :
  pin_ok (inputPassword s) = false ->
  MAX_ATTEMPTS <= Int16.wrap (attemptCount s + 1) ->
  exec onSubmit s =
  mkSys "" 0 (currentState s) (stateChangeTime s)
        (nKey s) (nHum s) (nTemp s) (nAnalog s) (nDigital s) (nMillis s)
        (rev (error_events (Int16.wrap (attemptCount s + 1)) ++ lockout_events)
           ++ out s).
Proof.
  unfold pin_ok; intros H Hge.
  unfold onSubmit, exec, bind, load; cbn. rewrite H. cbn.
  destruct (Z.geb_spec (Int16.wrap (attemptCount s + 1)) MAX_ATTEMPTS) as [_|Hlt];
    [reflexivity | lia].
Qed.

Lemma wrap_small (z : Z) :
  Int16.min_signed <= z <= Int16.max_signed -> Int16.wrap z = z.
Proof.
  unfold Int16.wrap, Int16.min_signed, Int16.max_signed, Int16.modulus.
  intros H. rewrite Z.mod_small; lia.
Qed.

Lemma pin_ok_true (pw : string) : pin_ok pw = true <-> pw = CORRECT_PASSWORD.
Proof.
  unfold pin_ok. rewrite andb_true_iff, Nat.eqb_eq, String.eqb_eq.
  split; [tauto | intros ->; split; reflexivity].
Qed.

Lemma pin_ok_false (pw : string) : pin_ok pw = false <-> pw <> CORRECT_PASSWORD.
Proof.
  rewrite <- pin_ok_true. destruct (pin_ok pw); split; congruence.
Qed.

Lemma short_pin_not_ok (pw : string) :
  (String.length pw < 4)%nat -> pin_ok pw = false.
Proof.
  intros H. apply pin_ok_false. intros ->. cbn in H. lia.
Qed.

(** *** The other keys *)

Lemma length_snoc (pw : string) (k : ascii) :
  String.length (pw ++ String k "") = S (String.length pw).
Proof. induction pw as [|c pw IH]; cbn; [reflexivity | now rewrite IH]. Qed.

Lemma onDigit_room (k : ascii) (s : Sys) :
  (String.length (inputPassword s) < 4)%nat ->
  exec (onDigit k) s =
  mkSys (inputPassword s ++ String k "") (attemptCount s) (currentState s)
        (stateChangeTime s)
        (nKey s) (nHum s) (nTemp s) (nAnalog s) (nDigital s) (nMillis s)
        (LcdPrint (getAsterisks (Z.of_nat (S (String.length (inputPassword s)))))
           :: LcdSetCursor 0 1 :: out s).
Proof.
  intros H. apply Nat.ltb_lt in H.
  unfold onDigit, exec, bind, load; cbn -[Nat.ltb]. rewrite H. cbn.
  now rewrite length_snoc.
Qed.

Lemma onDigit_full (k : ascii) (s : Sys) :
  (4 <= String.length (inputPassword s))%nat -> exec (onDigit k) s = s.
Proof.
  intros H. apply Nat.ltb_ge in H.
  unfold onDigit, exec, bind, load; cbn -[Nat.ltb]. now rewrite H.
Qed.

Lemma onClear_eq (s : Sys) :
  exec onClear s =
  mkSys "" (attemptCount s) (currentState s) (stateChangeTime s)
        (nKey s) (nHum s) (nTemp s) (nAnalog s) (nDigital s) (nMillis s)
        (LcdPrint "Ingrese la clave:" :: LcdClear :: out s).
Proof. reflexivity. Qed.

Lemma onKey_other (k : ascii) (s : Sys) :
  k <> NO_KEY -> k <> "#"%char -> k <> "*"%char ->
  exec (onKey k) s = exec (onDigit k) s.
Proof.
  intros H0 H1 H2. unfold onKey.
  apply Ascii.eqb_neq in H0, H1, H2. now rewrite H0, H1, H2.
Qed.

Lemma digit_is_other (k : ascii) :
  is_digit k = true -> k <> NO_KEY /\ k <> "#"%char /\ k <> "*"%char.
Proof. intros H; repeat split; intros ->; discriminate H. Qed.

(** keys other than '#' touch neither the attempt counter nor the state *)
Lemma onKey_keeps_gate (k : ascii) (s : Sys) :
  k <> "#"%char ->
  attemptCount (exec (onKey k) s) = attemptCount s /\
  currentState (exec (onKey k) s) = currentState s.
Proof.
  intros Hk. unfold onKey.
  destruct (Ascii.eqb_spec k NO_KEY); [split; reflexivity|].
  destruct (Ascii.eqb_spec k "#"); [contradiction|].
  destruct (Ascii.eqb_spec k "*"); [split; reflexivity|].
  destruct (Nat.lt_ge_cases (String.length (inputPassword s)) 4) as [Hl|Hl].
  - rewrite onDigit_room by exact Hl. split; reflexivity.
  - rewrite onDigit_full by exact Hl. split; reflexivity.
Qed.

Lemma press_keeps_gate (ks : list ascii) (s : Sys) :
  ~ In "#"%char ks ->
  attemptCount (press ks s) = attemptCount s /\
  currentState (press ks s) = currentState s.
Proof.
  revert s. induction ks as [|k ks IH]; intros s Hin; cbn.
  - split; reflexivity.
  - destruct (IH (exec (onKey k) s)) as [Ha Hc].
    { intros Hi. apply Hin. now right. }
    destruct (onKey_keeps_gate k s) as [Ha' Hc'].
    { intros ->. apply Hin. now left. }
    split; congruence.
Qed.

(** *** The access gate: claims C1, C2, C5, C6, C9, C10 *)

(** Claim C1, as the sketch has it.  When '#' arrives while Locked and the
    candidate PIN is the four-character secret, the handler plays the
    welcome sequence, moves to Environmental and sets the state timer to
    the value [millis()] returns; it leaves the candidate PIN (still the
    secret) and the attempt counter as they were. *)
Theorem submit_correct_pin_unlocks (s : Sys) :
  env_getKey env (nKey s) = "#"%char ->
  currentState s = Locked ->
  String.length (inputPassword s) = 4%nat ->
  inputPassword s = CORRECT_PASSWORD ->
  let s' := exec loop s in
  currentState s' = Environmental /\
  stateChangeTime s' = ULong.wrap (env_millis env (nMillis s)) /\
  inputPassword s' = CORRECT_PASSWORD /\
  attemptCount s' = attemptCount s /\
  out s' = (rev welcome_events ++ out s)%list.
Proof.
  intros Hk _ _ Hpw s'. subst s'.
  rewrite loop_onKey, Hk.
  change (onKey "#") with onSubmit.
  rewrite onSubmit_ok by (apply pin_ok_true; exact Hpw).
  cbn [currentState stateChangeTime inputPassword attemptCount out
       set_nKey nMillis].
  repeat split; [exact Hpw].
Qed.

(** Claim C2, as the sketch has it.  While Locked a key other than '#' and
    '*' -- the letters A to D as much as the digits -- goes through the
    digit branch: with fewer than four characters entered it is appended to
    the candidate PIN and the masked line is redrawn, with four entered it is
    dropped without a trace.  The attempt counter and the state are left
    alone in both cases. *)
Theorem other_key_is_entered (s : Sys) (key : ascii) :
  env_getKey env (nKey s) = key ->
  key <> NO_KEY -> key <> "#"%char -> key <> "*"%char ->
  currentState s = Locked ->
  let s' := exec loop s in
  attemptCount s' = attemptCount s /\
  currentState s' = Locked /\
  ((String.length (inputPassword s) < 4)%nat ->
     inputPassword s' = (inputPassword s ++ String key "")%string /\
     out s' =
       (LcdPrint (getAsterisks (Z.of_nat (S (String.length (inputPassword s)))))
          :: LcdSetCursor 0 1 :: out s)%list) /\
  ((4 <= String.length (inputPassword s))%nat ->
     inputPassword s' = inputPassword s /\ out s' = out s).
Proof.
  intros Hk H0 H1 H2 Hst s'. subst s'.
  rewrite loop_onKey, Hk, onKey_other by assumption.
  destruct (Nat.lt_ge_cases (String.length (inputPassword (set_nKey (S (nKey s)) s))) 4)
    as [Hl|Hl].
  - rewrite onDigit_room by exact Hl. cbn in *.
    repeat split; try assumption; intros; try reflexivity; lia.
  - rewrite onDigit_full by exact Hl. cbn in *.
    repeat split; try assumption; intros; try reflexivity; lia.
Qed.

(** Claim C6.  When '#' arrives while Locked and the candidate PIN has four
    characters but is not the secret, the handler shows "Error intento N"
    with N one more than the attempt counter, empties the candidate PIN and
    stays Locked; as long as N is below MAX_ATTEMPTS the attempt counter
    ends at N, exactly one more than before. *)
Theorem submit_wrong_pin_counts (s : Sys) :
  env_getKey env (nKey s) = "#"%char ->
  currentState s = Locked ->
  String.length (inputPassword s) = 4%nat ->
  inputPassword s <> CORRECT_PASSWORD ->
  Int16.min_signed <= attemptCount s < Int16.max_signed ->
  let s' := exec loop s in
  inputPassword s' = ""%string /\
  currentState s' = Locked /\
  (exists later,
      out s' = (later ++ rev (error_events (attemptCount s + 1)) ++ out s)%list) /\
  (attemptCount s + 1 < MAX_ATTEMPTS ->
     attemptCount s' = attemptCount s + 1 /\
     out s' = (rev (error_events (attemptCount s + 1)) ++ out s)%list).
Proof.
  intros Hk Hst _ Hpw Hr s'. subst s'.
  rewrite loop_onKey, Hk. change (onKey "#") with onSubmit.
  apply pin_ok_false in Hpw.
  assert (Hw : Int16.wrap (attemptCount s + 1) = attemptCount s + 1).
  { apply wrap_small. unfold Int16.min_signed, Int16.max_signed in *. lia. }
  destruct (Z.lt_ge_cases (attemptCount s + 1) MAX_ATTEMPTS) as [Hlt|Hge].
  - rewrite onSubmit_fail; cbn [inputPassword attemptCount set_nKey];
      rewrite ?Hw; try assumption.
    cbn [currentState out inputPassword attemptCount].
    repeat split; try assumption.
    exists []. reflexivity.
  - rewrite onSubmit_lockout; cbn [inputPassword attemptCount set_nKey];
      rewrite ?Hw; try assumption.
    cbn [currentState out inputPassword attemptCount].
    repeat split; try assumption; try lia.
    exists (rev lockout_events). rewrite rev_app_distr, app_assoc. reflexivity.
Qed.

(** Claim C10.  '#' with fewer than four characters entered (none at all
    included) is a failed attempt like any other: the candidate PIN is
    emptied, the system stays Locked, and the attempt counter goes up by
    one -- or, when that reaches MAX_ATTEMPTS, the lockout sequence runs and
    the counter restarts at 0. *)
Theorem submit_short_pin_counts (s : Sys) :
  env_getKey env (nKey s) = "#"%char ->
  currentState s = Locked ->
  (String.length (inputPassword s) < 4)%nat ->
  Int16.min_signed <= attemptCount s < Int16.max_signed ->
  let s' := exec loop s in
  inputPassword s' = ""%string /\
  currentState s' = Locked /\
  (attemptCount s + 1 < MAX_ATTEMPTS ->
     attemptCount s' = attemptCount s + 1 /\
     out s' = (rev (error_events (attemptCount s + 1)) ++ out s)%list) /\
  (MAX_ATTEMPTS <= attemptCount s + 1 ->
     attemptCount s' = 0 /\
     out s' =
       (rev (error_events (attemptCount s + 1) ++ lockout_events) ++ out s)%list).
Proof.
  intros Hk Hst Hlen Hr s'. subst s'.
  rewrite loop_onKey, Hk. change (onKey "#") with onSubmit.
  apply short_pin_not_ok in Hlen.
  assert (Hw : Int16.wrap (attemptCount s + 1) = attemptCount s + 1).
  { apply wrap_small. unfold Int16.min_signed, Int16.max_signed in *. lia. }
  destruct (Z.lt_ge_cases (attemptCount s + 1) MAX_ATTEMPTS) as [Hlt|Hge].
  - rewrite onSubmit_fail; cbn [inputPassword attemptCount set_nKey];
      rewrite ?Hw; try assumption.
    cbn [currentState out inputPassword attemptCount].
    repeat split; try assumption; lia.
  - rewrite onSubmit_lockout; cbn [inputPassword attemptCount set_nKey];
      rewrite ?Hw; try assumption.
    cbn [currentState out inputPassword attemptCount].
    repeat split; try assumption; lia.
Qed.

Lemma onKey_length (k : ascii) (s : Sys) :
  (String.length (inputPassword s) <= 4)%nat ->
  (String.length (inputPassword (exec (onKey k) s)) <= 4)%nat.
Proof.
  intros Hlen. unfold onKey.
  destruct (Ascii.eqb_spec k NO_KEY); [exact Hlen|].
  destruct (Ascii.eqb_spec k "#").
  { destruct (pin_ok (inputPassword s)) eqn:Hok.
    - rewrite onSubmit_ok by exact Hok. exact Hlen.
    - destruct (Z.lt_ge_cases (Int16.wrap (attemptCount s + 1)) MAX_ATTEMPTS).
      + rewrite onSubmit_fail by assumption. cbn. lia.
      + rewrite onSubmit_lockout by assumption. cbn. lia. }
  destruct (Ascii.eqb_spec k "*"); [cbn; lia|].
  destruct (Nat.lt_ge_cases (String.length (inputPassword s)) 4) as [Hl|Hl].
  - rewrite onDigit_room by exact Hl. cbn [inputPassword].
    rewrite length_snoc. lia.
  - rewrite onDigit_full by exact Hl. exact Hlen.
Qed.

Lemma press_length (ks : list ascii) (s : Sys) :
  (String.length (inputPassword s) <= 4)%nat ->
  (String.length (inputPassword (press ks s)) <= 4)%nat.
Proof.
  revert s. induction ks as [|k ks IH]; intros s Hlen; cbn; [exact Hlen|].
  apply IH, onKey_length, Hlen.
Qed.

(** Claim C9.  Whatever digits are typed while Locked, the candidate PIN
    never grows beyond four characters; and once it has four, every further
    digit leaves the whole state -- candidate PIN and display included --
    exactly as it was. *)
Theorem digits_never_exceed_four (s : Sys) (ds : list ascii) :
  currentState s = Locked ->
  Forall (fun d => is_digit d = true) ds ->
  (String.length (inputPassword s) <= 4)%nat ->
  (String.length (inputPassword (press ds s)) <= 4)%nat /\
  (String.length (inputPassword s) = 4%nat -> press ds s = s).
Proof.
  intros _ Hds Hlen. split; [apply press_length, Hlen|].
  intros H4. clear Hlen. induction Hds as [|d ds Hd _ IH]; cbn; [reflexivity|].
  destruct (digit_is_other d Hd) as (H0 & H1 & H2).
  rewrite onKey_other, onDigit_full by (assumption || lia). exact IH.
Qed.

(** Claim C5.  Start from a Locked gate whose attempt counter is 0 and make
    three submissions in a row that all fail, typing anything but '#' in
    between.  The first two only show "Error intento 1" and "Error intento
    2"; the third runs the lockout sequence, after which the attempt counter
    is 0 again, the candidate PIN is empty and the system is still Locked. *)
Theorem three_failures_lock_out (s : Sys) (ks1 ks2 ks3 : list ascii) :
  currentState s = Locked ->
  attemptCount s = 0 ->
  ~ In "#"%char ks1 -> ~ In "#"%char ks2 -> ~ In "#"%char ks3 ->
  let a1 := press ks1 s in
  let s1 := exec (onKey "#") a1 in
  let a2 := press ks2 s1 in
  let s2 := exec (onKey "#") a2 in
  let a3 := press ks3 s2 in
  let s3 := exec (onKey "#") a3 in
  inputPassword a1 <> CORRECT_PASSWORD ->
  inputPassword a2 <> CORRECT_PASSWORD ->
  inputPassword a3 <> CORRECT_PASSWORD ->
  (attemptCount s1 = 1 /\ currentState s1 = Locked /\
   out s1 = (rev (error_events 1) ++ out a1)%list) /\
  (attemptCount s2 = 2 /\ currentState s2 = Locked /\
   out s2 = (rev (error_events 2) ++ out a2)%list) /\
  (attemptCount s3 = 0 /\ currentState s3 = Locked /\
   inputPassword s3 = ""%string /\
   out s3 = (rev (error_events MAX_ATTEMPTS ++ lockout_events) ++ out a3)%list).
Proof.
  intros Hst Hn K1 K2 K3 a1 s1 a2 s2 a3 s3 P1 P2 P3.
  apply pin_ok_false in P1, P2, P3.
  destruct (press_keeps_gate ks1 s K1) as [A1 C1].
  fold a1 in A1, C1. rewrite Hn in A1. rewrite Hst in C1.
  assert (E1 : s1 = mkSys "" 1 Locked (stateChangeTime a1)
                 (nKey a1) (nHum a1) (nTemp a1) (nAnalog a1) (nDigital a1)
                 (nMillis a1) (rev (error_events 1) ++ out a1)).
  { unfold s1. change (onKey "#") with onSubmit.
    rewrite onSubmit_fail; rewrite ?A1, ?C1; [reflexivity | exact P1 | reflexivity]. }
  destruct (press_keeps_gate ks2 s1 K2) as [A2 C2].
  fold a2 in A2, C2. rewrite E1 in A2, C2. cbn in A2, C2.
  assert (E2 : s2 = mkSys "" 2 Locked (stateChangeTime a2)
                 (nKey a2) (nHum a2) (nTemp a2) (nAnalog a2) (nDigital a2)
                 (nMillis a2) (rev (error_events 2) ++ out a2)).
  { unfold s2. change (onKey "#") with onSubmit.
    rewrite onSubmit_fail; rewrite ?A2, ?C2; [reflexivity | exact P2 | reflexivity]. }
  destruct (press_keeps_gate ks3 s2 K3) as [A3 C3].
  fold a3 in A3, C3. rewrite E2 in A3, C3. cbn in A3, C3.
  assert (E3 : s3 = mkSys "" 0 Locked (stateChangeTime a3)
                 (nKey a3) (nHum a3) (nTemp a3) (nAnalog a3) (nDigital a3)
                 (nMillis a3)
                 (rev (error_events MAX_ATTEMPTS ++ lockout_events) ++ out a3)).
  { unfold s3. change (onKey "#") with onSubmit.
    rewrite onSubmit_lockout; rewrite ?A3, ?C3;
      [reflexivity | exact P3 | discriminate]. }
  rewrite E1, E2, E3. cbn [attemptCount currentState inputPassword out].
  repeat split.
Qed.

(** *** The monitoring handlers: claims C7, C8 *)

Lemma monitoreoAmbiental_alarm (s : Sys) :
  out_of_range (env_readTemperature env (nTemp s))
               (env_readHumidity env (nHum s)) = true ->
  exec monitoreoAmbiental s =
  mkSys (inputPassword s) (attemptCount s) 4
        (ULong.wrap (env_millis env (nMillis s)))
        (nKey s) (S (nHum s)) (S (nTemp s)) (nAnalog s) (nDigital s)
        (S (nMillis s)) (out s).
Proof.
  intros H. unfold monitoreoAmbiental, exec, bind; cbn. rewrite H. reflexivity.
Qed.

(** Claim C7.  In Environmental, a reading with temperature below 10 or
    above 40, or humidity below 5 or above 60, sends the sketch to Alarm in
    that very dispatch, whatever the state timer and the clock say, and
    nothing is written to the display (no event at all is emitted). *)
Theorem environmental_out_of_range_alarms (fuel : nat) (s : Sys) :
  currentState s = Environmental ->
  let t := env_readTemperature env (nTemp s) in
  let h := env_readHumidity env (nHum s) in
  F32.lt t f10 = true \/ F32.gt t f40 = true \/
  F32.lt h f5 = true \/ F32.gt h f60 = true ->
  exists s',
    dispatch fuel s = Some s' /\
    currentState s' = Alarm /\
    stateChangeTime s' = ULong.wrap (env_millis env (nMillis s)) /\
    out s' = out s.
Proof.
  intros Hst t h Hout.
  assert (H : out_of_range t h = true).
  { unfold out_of_range. rewrite !orb_true_iff. tauto. }
  unfold dispatch. rewrite Hst. cbn [Environmental].
  rewrite monitoreoAmbiental_alarm by exact H.
  eexists; split; [reflexivity|]. repeat split.
Qed.

Lemma monitorEventos_due (s : Sys) :
  3000 <= ULong.sub (ULong.wrap (env_millis env (nMillis s))) (stateChangeTime s) ->
  let lux := lux_of (env_analogRead env (nAnalog s)) in
  exec monitorEventos s =
  mkSys (inputPassword s) (attemptCount s)
        (if F32.gt lux f700 || F32.lt lux f200 then 3 else 1)
        (ULong.wrap (env_millis env (S (nMillis s))))
        (nKey s) (nHum s) (nTemp s) (S (nAnalog s)) (nDigital s)
        (S (S (nMillis s))) (rev (eventos_events lux) ++ out s).
Proof.
  intros H lux. apply Z.geb_le in H.
  unfold monitorEventos, exec, bind, load; cbn -[lux_of ULong.sub ULong.wrap].
  rewrite H. cbn -[lux_of ULong.sub ULong.wrap]. fold lux.
  destruct (F32.gt lux f700 || F32.lt lux f200); reflexivity.
Qed.

Lemma monitorEventos_early (s : Sys) :
  ULong.sub (ULong.wrap (env_millis env (nMillis s))) (stateChangeTime s) < 3000 ->
  exec monitorEventos s =
  mkSys (inputPassword s) (attemptCount s) (currentState s) (stateChangeTime s)
        (nKey s) (nHum s) (nTemp s) (S (nAnalog s)) (nDigital s)
        (S (nMillis s)) (out s).
Proof.
  intros H.
  assert (H' : (ULong.sub (ULong.wrap (env_millis env (nMillis s)))
                          (stateChangeTime s) >=? 3000) = false).
  { destruct (Z.geb_spec (ULong.sub (ULong.wrap (env_millis env (nMillis s)))
                                    (stateChangeTime s)) 3000); [lia | reflexivity]. }
  unfold monitorEventos, exec, bind, load; cbn -[lux_of ULong.sub ULong.wrap].
  rewrite H'. reflexivity.
Qed.

(** Claim C8.  In EventsLight, with [elapsed] the unsigned difference
    between [millis()] and the state timer: when [elapsed >= 3000] the
    handler shows the lux value and moves to Alert if lux > 700 or
    lux < 200, and to Environmental otherwise; when [elapsed < 3000] it
    changes neither the state nor the state timer and emits nothing. *)
Theorem events_light_transitions (fuel : nat) (s : Sys) :
  currentState s = EventsLight ->
  let lux := lux_of (env_analogRead env (nAnalog s)) in
  let elapsed :=
    ULong.sub (ULong.wrap (env_millis env (nMillis s))) (stateChangeTime s) in
  exists s',
    dispatch fuel s = Some s' /\
    (3000 <= elapsed ->
       (F32.gt lux f700 = true \/ F32.lt lux f200 = true ->
          currentState s' = Alert) /\
       (F32.gt lux f700 = false /\ F32.lt lux f200 = false ->
          currentState s' = Environmental) /\
       out s' = (rev (eventos_events lux) ++ out s)%list) /\
    (elapsed < 3000 ->
       currentState s' = EventsLight /\
       stateChangeTime s' = stateChangeTime s /\
       out s' = out s).
Proof.
  intros Hst lux elapsed.
  unfold dispatch. rewrite Hst. cbn [EventsLight].
  eexists; split; [reflexivity|]. split.
  - intros Hdue. rewrite monitorEventos_due by exact Hdue.
    cbn [currentState out]. fold lux. repeat split.
    + intros Hor. apply orb_true_iff in Hor. now rewrite Hor.
    + intros [Hg Hl]. now rewrite Hg, Hl.
  - intros Hearly. rewrite monitorEventos_early by exact Hearly.
    cbn [currentState stateChangeTime out]. repeat split. exact Hst.
Qed.

(** *** The blocking loop of alarma: claim C4 *)

Lemma alarma_read_eq (s : Sys) :
  alarma_read s =
  ((env_readTemperature env (nTemp s), env_readHumidity env (nHum s)),
   set_nTemp (S (nTemp s)) (set_nHum (S (nHum s)) s)).
Proof. reflexivity. Qed.

Lemma recovered_shift (nt nh k : nat) :
  recovered (S nt) (S nh) k = recovered nt nh (S k).
Proof. unfold recovered. now rewrite !Nat.add_succ_r. Qed.

Lemma alarma_loop_exit (fuel : nat) :
  forall s s', alarma_loop fuel s = Some s' ->
  exists k, (k < fuel)%nat /\
            recovered (nTemp s) (nHum s) k = true /\
            (forall j, (j < k)%nat -> recovered (nTemp s) (nHum s) j = false) /\
            s' = alarma_left s k.
Proof.
  induction fuel as [|fuel IH]; intros s s' H; [discriminate|].
  cbn [alarma_loop] in H. rewrite alarma_read_eq in H. cbn [fst snd] in H.
  destruct (in_range _ _) eqn:Hin.
  - exists 0%nat. unfold recovered. rewrite !Nat.add_0_r.
    repeat split; [lia | exact Hin | intros j Hj; lia |].
    injection H as <-. unfold alarma_left. now rewrite !Nat.add_1_r.
  - apply IH in H. destruct H as (k & Hk & Hok & Hfirst & ->).
    cbn [nTemp nHum set_nTemp set_nHum] in Hok, Hfirst.
    exists (S k). repeat split.
    + lia.
    + now rewrite <- recovered_shift.
    + intros [|j] Hj.
      * unfold recovered. now rewrite !Nat.add_0_r.
      * rewrite <- recovered_shift. apply Hfirst. lia.
    + unfold alarma_left; cbn. now rewrite !Nat.add_succ_r.
Qed.

Lemma alarma_loop_enough (fuel : nat) :
  forall s k, recovered (nTemp s) (nHum s) k = true -> (k < fuel)%nat ->
  exists s', alarma_loop fuel s = Some s'.
Proof.
  induction fuel as [|fuel IH]; intros s k Hok Hk; [lia|].
  cbn [alarma_loop]. rewrite alarma_read_eq. cbn [fst snd].
  destruct (in_range _ _) eqn:Hin; [eexists; reflexivity|].
  destruct k as [|k].
  - unfold recovered in Hok. rewrite !Nat.add_0_r in Hok. congruence.
  - apply (IH _ k); [|lia]. cbn [nTemp nHum set_nTemp set_nHum].
    now rewrite recovered_shift.
Qed.

(** Claim C4.  In Alarm the handler raises the alarm and then reads
    humidity and temperature again and again.  It returns if and only if
    some pair of readings has temperature in [10,40] and humidity in
    [5,60]; no amount of fuel makes it return otherwise.  When it returns
    it has left at the first such pair, with the red LED and the buzzer
    switched off, the state set to Environmental and the state timer set
    to [millis()]; and any fuel beyond the index of a good pair is enough
    for it to return. *)
Theorem alarma_returns_iff_recovery (s : Sys) :
  currentState s = Alarm ->
  ((exists fuel s', dispatch fuel s = Some s') <->
   (exists k, recovered (nTemp s) (nHum s) k = true)) /\
  (forall fuel s', dispatch fuel s = Some s' ->
     exists k, (k < fuel)%nat /\
       recovered (nTemp s) (nHum s) k = true /\
       (forall j, (j < k)%nat -> recovered (nTemp s) (nHum s) j = false) /\
       s' = alarma_left (set_out (rev alarma_events ++ out s) s) k /\
       currentState s' = Environmental) /\
  (forall k fuel, recovered (nTemp s) (nHum s) k = true -> (k < fuel)%nat ->
     exists s', dispatch fuel s = Some s').
Proof.
  intros Hst.
  assert (Hd : forall fuel, dispatch fuel s =
                 alarma_loop fuel (set_out (rev alarma_events ++ out s) s)).
  { intros fuel. unfold dispatch. rewrite Hst. reflexivity. }
  assert (Hexit : forall fuel s', dispatch fuel s = Some s' ->
     exists k, (k < fuel)%nat /\
       recovered (nTemp s) (nHum s) k = true /\
       (forall j, (j < k)%nat -> recovered (nTemp s) (nHum s) j = false) /\
       s' = alarma_left (set_out (rev alarma_events ++ out s) s) k /\
       currentState s' = Environmental).
  { intros fuel s' H. rewrite Hd in H. apply alarma_loop_exit in H.
    destruct H as (k & Hk & Hok & Hfirst & ->).
    exists k. repeat split; assumption. }
  assert (Henough : forall k fuel,
     recovered (nTemp s) (nHum s) k = true -> (k < fuel)%nat ->
     exists s', dispatch fuel s = Some s').
  { intros k fuel Hok Hk. rewrite Hd.
    apply (alarma_loop_enough fuel _ k); assumption. }
  repeat split; try assumption.
  - intros (fuel & s' & H). destruct (Hexit fuel s' H) as (k & _ & Hok & _).
    exists k. exact Hok.
  - intros (k & Hok). exists (S k). apply (Henough k); [exact Hok | lia].
Qed.

(** *** Reachable states: claim C3 *)

Lemma onKey_state (k : ascii) (s : Sys) :
  currentState (exec (onKey k) s) = currentState s \/
  currentState (exec (onKey k) s) = Environmental.
Proof.
  destruct (Ascii.eqb_spec k "#") as [->|Hk].
  - change (onKey "#") with onSubmit.
    destruct (pin_ok (inputPassword s)) eqn:Hok.
    + rewrite onSubmit_ok by exact Hok. now right.
    + destruct (Z.lt_ge_cases (Int16.wrap (attemptCount s + 1)) MAX_ATTEMPTS).
      * rewrite onSubmit_fail by assumption. now left.
      * rewrite onSubmit_lockout by assumption. now left.
  - left. apply onKey_keeps_gate, Hk.
Qed.

Lemma monitoreoAmbiental_state (s : Sys) :
  currentState (exec monitoreoAmbiental s) = currentState s \/
  currentState (exec monitoreoAmbiental s) = Alarm \/
  currentState (exec monitoreoAmbiental s) = EventsLight.
Proof.
  unfold monitoreoAmbiental, exec, bind, load;
    cbn -[out_of_range ULong.sub ULong.wrap].
  destruct (out_of_range _ _); cbn -[ULong.sub ULong.wrap]; [now (right; left)|].
  destruct (_ >=? _); cbn; [now (right; right) | now left].
Qed.

Lemma monitorEventos_state (s : Sys) :
  currentState (exec monitorEventos s) = currentState s \/
  currentState (exec monitorEventos s) = Alert \/
  currentState (exec monitorEventos s) = Environmental.
Proof.
  destruct (Z.lt_ge_cases
              (ULong.sub (ULong.wrap (env_millis env (nMillis s))) (stateChangeTime s))
              3000) as [H|H].
  - rewrite monitorEventos_early by exact H. now left.
  - rewrite monitorEventos_due by exact H. cbn [currentState].
    destruct (_ || _); [now (right; left) | now (right; right)].
Qed.

Lemma alerta_state (s : Sys) :
  currentState (exec alerta s) = currentState s \/
  currentState (exec alerta s) = EventsLight.
Proof.
  unfold alerta, exec, bind, load; cbn -[lux_of ULong.sub ULong.wrap F32.gt F32.lt].
  destruct (_ >=? _); cbn -[lux_of F32.gt F32.lt]; [right | now left].
  destruct (F32.gt _ _); [reflexivity|].
  destruct (F32.lt _ _); reflexivity.
Qed.

Lemma dispatch_live (fuel : nat) (s s' : Sys) :
  live_state (currentState s) -> dispatch fuel s = Some s' ->
  live_state (currentState s').
Proof.
  unfold live_state, Locked, Environmental, EventsLight, Alert, Alarm.
  intros Hlive H. unfold dispatch in H.
  destruct Hlive as [E|[E|[E|[E|E]]]]; rewrite E in H.
  - injection H as <-. tauto.
  - injection H as <-.
    pose proof (monitoreoAmbiental_state s) as Hs.
    unfold Alarm, EventsLight in Hs. rewrite E in Hs. tauto.
  - injection H as <-.
    pose proof (monitorEventos_state s) as Hs.
    unfold Alert, Environmental in Hs. rewrite E in Hs. tauto.
  - injection H as <-.
    pose proof (alerta_state s) as Hs.
    unfold EventsLight in Hs. rewrite E in Hs. tauto.
  - unfold alarma in H. apply alarma_loop_exit in H.
    destruct H as (k & _ & _ & _ & ->). cbn. tauto.
Qed.

(** Claim C3.  Starting from the initial state and [setup], whatever the
    keypad, the sensors and the clock deliver, [currentState] is always one
    of Locked, Environmental, EventsLight, Alert and Alarm: the sketch is
    never in Infrared and never in Hall. *)
Theorem infrared_hall_unreachable (s : Sys) :
  reachable s ->
  live_state (currentState s) /\
  currentState s <> Infrared /\ currentState s <> Hall.
Proof.
  intros Hr.
  assert (Hlive : live_state (currentState s)).
  { induction Hr as [|s Hr IH|fuel s s' Hr IH Hd].
    - left. reflexivity.
    - rewrite loop_onKey.
      destruct (onKey_state (env_getKey env (nKey s)) (set_nKey (S (nKey s)) s))
        as [E|E]; rewrite E; [exact IH | right; left; reflexivity].
    - exact (dispatch_live fuel s s' IH Hd). }
  split; [exact Hlive|].
  unfold live_state, Locked, Environmental, EventsLight, Alert, Alarm,
    Infrared, Hall in *.
  lia.
Qed.

(** a whole cycle stays within the reachable states *)
Lemma tick_reachable (fuel : nat) (s s' : Sys) :
  reachable s -> tick fuel s = Some s' -> reachable s'.
Proof.
  intros Hr Ht. unfold tick in Ht.
  exact (reach_dispatch fuel _ s' (reach_loop s Hr) Ht).
Qed.

(** *** The gate invariant of the data model

    In every reachable state the attempt counter is in [0, MAX_ATTEMPTS)
    and the candidate PIN has at most four characters. *)

Lemma onKey_attempts (k : ascii) (s : Sys) :
  0 <= attemptCount s < MAX_ATTEMPTS ->
  0 <= attemptCount (exec (onKey k) s) < MAX_ATTEMPTS.
Proof.
  intros Hn. destruct (Ascii.eqb_spec k "#") as [->|Hk].
  - change (onKey "#") with onSubmit.
    assert (Hw : Int16.wrap (attemptCount s + 1) = attemptCount s + 1).
    { apply wrap_small.
      unfold Int16.min_signed, Int16.max_signed, MAX_ATTEMPTS in *. lia. }
    destruct (pin_ok (inputPassword s)) eqn:Hok.
    + rewrite onSubmit_ok by exact Hok. exact Hn.
    + destruct (Z.lt_ge_cases (Int16.wrap (attemptCount s + 1)) MAX_ATTEMPTS).
      * rewrite onSubmit_fail by assumption. cbn [attemptCount]. lia.
      * rewrite onSubmit_lockout by assumption. cbn [attemptCount].
        unfold MAX_ATTEMPTS. lia.
  - destruct (onKey_keeps_gate k s Hk) as [-> _]. exact Hn.
Qed.

Lemma monitoreoAmbiental_frame (s : Sys) :
  attemptCount (exec monitoreoAmbiental s) = attemptCount s /\
  inputPassword (exec monitoreoAmbiental s) = inputPassword s.
Proof.
  unfold monitoreoAmbiental, exec, bind, load;
    cbn -[out_of_range ULong.sub ULong.wrap].
  destruct (out_of_range _ _); cbn -[ULong.sub ULong.wrap]; [now split|].
  destruct (_ >=? _); cbn; now split.
Qed.

Lemma monitorEventos_frame (s : Sys) :
  attemptCount (exec monitorEventos s) = attemptCount s /\
  inputPassword (exec monitorEventos s) = inputPassword s.
Proof.
  destruct (Z.lt_ge_cases
              (ULong.sub (ULong.wrap (env_millis env (nMillis s))) (stateChangeTime s))
              3000) as [H|H].
  - rewrite monitorEventos_early by exact H. now split.
  - rewrite monitorEventos_due by exact H. now split.
Qed.

Lemma alerta_frame (s : Sys) :
  attemptCount (exec alerta s) = attemptCount s /\
  inputPassword (exec alerta s) = inputPassword s.
Proof.
  unfold alerta, exec, bind, load; cbn -[lux_of ULong.sub ULong.wrap F32.gt F32.lt].
  destruct (_ >=? _); cbn -[lux_of F32.gt F32.lt]; [|now split].
  destruct (F32.gt _ _); [now split|].
  destruct (F32.lt _ _); now split.
Qed.

Lemma digital_frame (s : Sys) :
  (attemptCount (exec monitoreoInfrarrojo s) = attemptCount s /\
   inputPassword (exec monitoreoInfrarrojo s) = inputPassword s) /\
  (attemptCount (exec monitoreoHall s) = attemptCount s /\
   inputPassword (exec monitoreoHall s) = inputPassword s).
Proof.
  unfold monitoreoInfrarrojo, monitoreoHall, exec, bind, load; cbn.
  split; destruct (_ =? _)%Z; cbn; now split.
Qed.

Lemma dispatch_frame (fuel : nat) (s s' : Sys) :
  dispatch fuel s = Some s' ->
  attemptCount s' = attemptCount s /\ inputPassword s' = inputPassword s.
Proof.
  unfold dispatch. intros H.
  destruct (currentState s) as [|p|p];
    [| destruct p as [[[p|p|]|[p|p|]|]|[[p|p|]|[p|p|]|]|] |];
    try (injection H as <-;
         first [ now split
               | apply monitoreoAmbiental_frame
               | apply monitorEventos_frame
               | apply alerta_frame
               | apply (proj1 (digital_frame s))
               | apply (proj2 (digital_frame s)) ]).
  unfold alarma in H. apply alarma_loop_exit in H.
  destruct H as (k & _ & _ & _ & ->). now split.
Qed.

Lemma reachable_gate_ok (s : Sys) : reachable s -> gate_ok s.
Proof.
  unfold gate_ok.
  induction 1 as [|s Hr [IHa IHl]|fuel s s' Hr [IHa IHl] Hd].
  - cbn. unfold MAX_ATTEMPTS. lia.
  - rewrite loop_onKey. split.
    + apply onKey_attempts. exact IHa.
    + apply onKey_length. exact IHl.
  - destruct (dispatch_frame fuel s s' Hd) as [-> ->]. now split.
Qed.

(** *** getAsterisks and the masked line *)

Lemma append_assoc (a b c : string) : ((a ++ b) ++ c = a ++ (b ++ c))%string.
Proof. induction a as [|x a IH]; cbn; [reflexivity | now rewrite IH]. Qed.

Lemma append_empty (a : string) : (a ++ "" = a)%string.
Proof. induction a as [|x a IH]; cbn; [reflexivity | now rewrite IH]. Qed.

Lemma asterisks_acc (n : nat) :
  forall acc, asterisks n acc = (acc ++ stars n)%string.
Proof.
  induction n as [|n IH]; intros acc; cbn.
  - now rewrite append_empty.
  - rewrite IH, append_assoc. reflexivity.
Qed.

Lemma stars_length (n : nat) : String.length (stars n) = n.
Proof. induction n as [|n IH]; cbn; [reflexivity | now rewrite IH]. Qed.

Lemma getAsterisks_eq (length : Z) :
  getAsterisks length = stars (Z.to_nat length).
Proof. unfold getAsterisks. now rewrite asterisks_acc. Qed.

(** X1.  getAsterisks(length) is the string of exactly [length] asterisks;
    for a length of zero or less the loop body never runs and the result is
    the empty string. *)
Theorem getAsterisks_is_stars (length : Z) :
  getAsterisks length = stars (Z.to_nat length) /\
  Z.of_nat (String.length (getAsterisks length)) = Z.max 0 length.
Proof.
  split; [apply getAsterisks_eq|].
  rewrite getAsterisks_eq, stars_length. lia.
Qed.

Lemma onKey_entry (k : ascii) (s : Sys) :
  entry_key k -> exec (onKey k) s = exec (onDigit k) s.
Proof. intros (H0 & H1 & H2). now apply onKey_other. Qed.

Lemma press_full (ks : list ascii) (s : Sys) :
  Forall entry_key ks ->
  (4 <= String.length (inputPassword s))%nat -> press ks s = s.
Proof.
  intros Hks H4. induction Hks as [|k ks Hk _ IH]; cbn; [reflexivity|].
  rewrite onKey_entry, onDigit_full by assumption. exact IH.
Qed.

Lemma press_pin (ks : list ascii) :
  forall s, Forall entry_key ks ->
  inputPassword (press ks s) =
  (inputPassword s ++
   string_of_list_ascii (firstn (4 - String.length (inputPassword s)) ks))%string.
Proof.
  induction ks as [|k ks IH]; intros s Hks.
  - cbn. rewrite firstn_nil. cbn. now rewrite append_empty.
  - inversion Hks as [|? ? Hk Hks']; subst. cbn [press].
    rewrite onKey_entry by exact Hk.
    destruct (Nat.lt_ge_cases (String.length (inputPassword s)) 4) as [Hl|Hl].
    + rewrite IH by exact Hks'. rewrite onDigit_room by exact Hl.
      cbn [inputPassword]. rewrite length_snoc, append_assoc.
      replace (4 - String.length (inputPassword s))%nat
        with (S (4 - S (String.length (inputPassword s))))%nat by lia.
      reflexivity.
    + rewrite onDigit_full by exact Hl. rewrite IH by exact Hks'.
      replace (4 - String.length (inputPassword s))%nat with 0%nat by lia.
      reflexivity.
Qed.

Lemma press_mask (ks : list ascii) :
  forall s, ks <> [] -> Forall entry_key ks ->
  (String.length (inputPassword s) < 4)%nat ->
  exists older,
    out (press ks s) =
    LcdPrint (stars (String.length (inputPassword (press ks s))))
      :: LcdSetCursor 0 1 :: older.
Proof.
  induction ks as [|k ks IH]; intros s Hne Hks Hl; [congruence|].
  inversion Hks as [|? ? Hk Hks']; subst. cbn [press].
  rewrite onKey_entry by exact Hk.
  assert (Hone : exists older,
            out (exec (onDigit k) s) =
            LcdPrint (stars (String.length (inputPassword (exec (onDigit k) s))))
              :: LcdSetCursor 0 1 :: older).
  { rewrite onDigit_room by exact Hl. cbn [out inputPassword].
    rewrite length_snoc.
    rewrite getAsterisks_eq, Nat2Z.id.
    eexists. reflexivity. }
  destruct ks as [|k' ks]; [exact Hone|].
  destruct (Nat.lt_ge_cases
              (String.length (inputPassword (exec (onDigit k) s))) 4) as [Hl'|Hl'].
  - apply IH; [discriminate | exact Hks' | exact Hl'].
  - rewrite press_full by assumption. exact Hone.
Qed.

Lemma list_ascii_length (l : list ascii) :
  String.length (string_of_list_ascii l) = List.length l.
Proof. induction l as [|x l IH]; cbn; [reflexivity | now rewrite IH]. Qed.

(** X2.  Keys typed on an empty candidate PIN (any keys but '#', '*' and
    "no key"): the candidate PIN is the first four of them, the rest are
    dropped, and the line drawn last on the display is a row of exactly as
    many asterisks as the candidate PIN has characters. *)
Theorem typing_keeps_first_four (s : Sys) (ks : list ascii) :
  inputPassword s = ""%string ->
  Forall entry_key ks ->
  inputPassword (press ks s) = string_of_list_ascii (firstn 4 ks) /\
  String.length (inputPassword (press ks s)) = Nat.min 4 (List.length ks) /\
  (ks <> [] ->
   exists older,
     out (press ks s) =
     (LcdPrint (stars (Nat.min 4 (List.length ks)))
        :: LcdSetCursor 0 1 :: older)%list).
Proof.
  intros Hp Hks.
  assert (E : inputPassword (press ks s) = string_of_list_ascii (firstn 4 ks)).
  { rewrite press_pin by exact Hks. rewrite Hp. reflexivity. }
  assert (L : String.length (inputPassword (press ks s))
              = Nat.min 4 (List.length ks)).
  { rewrite E, list_ascii_length. apply length_firstn. }
  repeat split; [exact E | exact L |].
  intros Hne. rewrite <- L. apply press_mask; [exact Hne | exact Hks |].
  rewrite Hp. cbn. lia.
Qed.

(** *** Keys other than '#' *)

Lemma onKey_same_but_pin (k : ascii) (s : Sys) :
  k <> "#"%char -> same_but_pin s (exec (onKey k) s).
Proof.
  intros Hk. unfold onKey, same_but_pin.
  destruct (Ascii.eqb_spec k NO_KEY); [repeat split|].
  destruct (Ascii.eqb_spec k "#"); [contradiction|].
  destruct (Ascii.eqb_spec k "*"); [repeat split|].
  destruct (Nat.lt_ge_cases (String.length (inputPassword s)) 4) as [Hl|Hl].
  - rewrite onDigit_room by exact Hl. repeat split.
  - rewrite onDigit_full by exact Hl. repeat split.
Qed.

Lemma press_app (ks ks' : list ascii) :
  forall s, press (ks ++ ks') s = press ks' (press ks s).
Proof. induction ks as [|k ks IH]; intros s; cbn; [reflexivity | apply IH]. Qed.

Lemma press_same_but_pin (ks : list ascii) :
  forall s, ~ In "#"%char ks -> same_but_pin s (press ks s).
Proof.
  induction ks as [|k ks IH]; intros s Hin; cbn [press].
  - unfold same_but_pin. repeat split.
  - assert (H1 : same_but_pin s (exec (onKey k) s)).
    { apply onKey_same_but_pin. intros ->. apply Hin. now left. }
    assert (H2 : same_but_pin (exec (onKey k) s) (press ks (exec (onKey k) s))).
    { apply IH. intros Hi. apply Hin. now right. }
    unfold same_but_pin in *.
    destruct H1 as (A1 & A2 & A3 & A4 & A5 & A6 & A7 & A8 & A9).
    destruct H2 as (B1 & B2 & B3 & B4 & B5 & B6 & B7 & B8 & B9).
    repeat split; congruence.
Qed.

(** X3.  Only '#' counts: whatever other keys are pressed, in any order
    and number, the attempt counter, the state, the state timer and all
    input cursors stay as they were; and a '*' at the end of them leaves
    the candidate PIN empty without giving the attempts back. *)
Theorem only_submit_touches_gate (s : Sys) (ks : list ascii) :
  ~ In "#"%char ks ->
  same_but_pin s (press ks s) /\
  inputPassword (press (ks ++ ["*"%char]) s) = ""%string /\
  attemptCount (press (ks ++ ["*"%char]) s) = attemptCount s.
Proof.
  intros Hin. pose proof (press_same_but_pin ks s Hin) as H.
  split; [exact H|]. rewrite press_app. cbn [press].
  change (onKey "*") with onClear. rewrite onClear_eq.
  cbn [inputPassword attemptCount]. split; [reflexivity | apply H].
Qed.


(** *** The other branches of the state handlers *)

Lemma geb_false (a b : Z) : a < b -> (a >=? b) = false.
Proof. intros H. destruct (Z.geb_spec a b); [lia | reflexivity]. Qed.

Lemma monitoreoAmbiental_due (s : Sys) :
  let t := env_readTemperature env (nTemp s) in
  let h := env_readHumidity env (nHum s) in
  out_of_range t h = false ->
  4000 <= ULong.sub (ULong.wrap (env_millis env (nMillis s))) (stateChangeTime s) ->
  exec monitoreoAmbiental s =
  mkSys (inputPassword s) (attemptCount s) 2
        (ULong.wrap (env_millis env (S (nMillis s))))
        (nKey s) (S (nHum s)) (S (nTemp s)) (nAnalog s) (nDigital s)
        (S (S (nMillis s))) (rev (ambiental_events t h) ++ out s).
Proof.
  intros t h Hin Hdue. apply Z.geb_le in Hdue.
  unfold monitoreoAmbiental, exec, bind, load;
    cbn -[out_of_range ULong.sub ULong.wrap].
  fold t h. rewrite Hin. cbn -[ULong.sub ULong.wrap].
  rewrite Hdue. reflexivity.
Qed.

Lemma monitoreoAmbiental_early (s : Sys) :
  out_of_range (env_readTemperature env (nTemp s))
               (env_readHumidity env (nHum s)) = false ->
  ULong.sub (ULong.wrap (env_millis env (nMillis s))) (stateChangeTime s) < 4000 ->
  exec monitoreoAmbiental s =
  mkSys (inputPassword s) (attemptCount s) (currentState s) (stateChangeTime s)
        (nKey s) (S (nHum s)) (S (nTemp s)) (nAnalog s) (nDigital s)
        (S (nMillis s)) (out s).
Proof.
  intros Hin Hearly. apply geb_false in Hearly.
  unfold monitoreoAmbiental, exec, bind, load;
    cbn -[out_of_range ULong.sub ULong.wrap].
  rewrite Hin. cbn -[ULong.sub ULong.wrap].
  rewrite Hearly. reflexivity.
Qed.

(** X9.  In Environmental, a reading that does not trip the alarm test:
    once [millis() - stateChangeTime] has reached 4000 the reading is shown
    ("Moni Ambiental", T and H), the sketch moves to EventsLight and the
    state timer is set to a second [millis()]; before that, state, state
    timer and display stay untouched. *)
Theorem environmental_in_range (fuel : nat) (s : Sys) :
  currentState s = Environmental ->
  let t := env_readTemperature env (nTemp s) in
  let h := env_readHumidity env (nHum s) in
  let elapsed :=
    ULong.sub (ULong.wrap (env_millis env (nMillis s))) (stateChangeTime s) in
  out_of_range t h = false ->
  exists s',
    dispatch fuel s = Some s' /\
    (4000 <= elapsed ->
       currentState s' = EventsLight /\
       stateChangeTime s' = ULong.wrap (env_millis env (S (nMillis s))) /\
       out s' = (rev (ambiental_events t h) ++ out s)%list) /\
    (elapsed < 4000 ->
       currentState s' = Environmental /\
       stateChangeTime s' = stateChangeTime s /\
       out s' = out s).
Proof.
  intros Hst t h elapsed Hin.
  unfold dispatch. rewrite Hst. cbn [Environmental].
  eexists; split; [reflexivity|]. split.
  - intros Hdue. rewrite monitoreoAmbiental_due by assumption.
    repeat split.
  - intros Hearly. rewrite monitoreoAmbiental_early by assumption.
    cbn [currentState stateChangeTime out]. repeat split. exact Hst.
Qed.

Lemma alerta_due (s : Sys) :
  3000 <= ULong.sub (ULong.wrap (env_millis env (nMillis s))) (stateChangeTime s) ->
  let lux := lux_of (env_analogRead env (nAnalog s)) in
  exec alerta s =
  mkSys (inputPassword s) (attemptCount s) 2
        (ULong.wrap (env_millis env (S (nMillis s))))
        (nKey s) (nHum s) (nTemp s) (S (nAnalog s)) (nDigital s)
        (S (S (nMillis s))) (rev (alerta_events lux) ++ out s).
Proof.
  intros H lux. apply Z.geb_le in H.
  unfold alerta, alerta_events, exec, bind, load;
    cbn -[lux_of ULong.sub ULong.wrap F32.gt F32.lt].
  rewrite H. cbn -[lux_of ULong.sub ULong.wrap F32.gt F32.lt]. fold lux.
  destruct (F32.gt lux f700); [reflexivity|].
  destruct (F32.lt lux f200); reflexivity.
Qed.

Lemma alerta_early (s : Sys) :
  ULong.sub (ULong.wrap (env_millis env (nMillis s))) (stateChangeTime s) < 3000 ->
  exec alerta s =
  mkSys (inputPassword s) (attemptCount s) (currentState s) (stateChangeTime s)
        (nKey s) (nHum s) (nTemp s) (S (nAnalog s)) (nDigital s)
        (S (nMillis s)) (out s).
Proof.
  intros H. apply geb_false in H.
  unfold alerta, exec, bind, load;
    cbn -[lux_of ULong.sub ULong.wrap F32.gt F32.lt].
  rewrite H. reflexivity.
Qed.

(** X10.  In Alert, once [millis() - stateChangeTime] has reached 3000 the
    handler shows "Alerta!", and for lux > 700 "Luz: Alta", for lux < 200
    "Luz: Baja", each with the blue LED and the alarm pattern, for any
    other lux (NaN included) nothing more; in all three cases it then
    moves to EventsLight and sets the state timer.  Before that it leaves
    state, state timer and display untouched. *)
Theorem alert_returns_to_events_light (fuel : nat) (s : Sys) :
  currentState s = Alert ->
  let lux := lux_of (env_analogRead env (nAnalog s)) in
  let elapsed :=
    ULong.sub (ULong.wrap (env_millis env (nMillis s))) (stateChangeTime s) in
  exists s',
    dispatch fuel s = Some s' /\
    (3000 <= elapsed ->
       currentState s' = EventsLight /\
       stateChangeTime s' = ULong.wrap (env_millis env (S (nMillis s))) /\
       out s' = (rev (alerta_events lux) ++ out s)%list) /\
    (elapsed < 3000 ->
       currentState s' = Alert /\
       stateChangeTime s' = stateChangeTime s /\
       out s' = out s).
Proof.
  intros Hst lux elapsed.
  unfold dispatch. rewrite Hst. cbn [Alert].
  eexists; split; [reflexivity|]. split.
  - intros Hdue. rewrite alerta_due by assumption. repeat split.
  - intros Hearly. rewrite alerta_early by assumption.
    cbn [currentState stateChangeTime out]. repeat split. exact Hst.
Qed.

Lemma monitoreoInfrarrojo_eq (s : Sys) :
  exec monitoreoInfrarrojo s =
  if (env_digitalRead env (nDigital s) INFRARED_PIN =? HIGH)%Z then
    mkSys (inputPassword s) (attemptCount s) 2
          (ULong.wrap (env_millis env (nMillis s)))
          (nKey s) (nHum s) (nTemp s) (nAnalog s) (S (nDigital s))
          (S (nMillis s)) (rev (sensor_events "Infrarrojo Activo") ++ out s)
  else set_nDigital (S (nDigital s)) s.
Proof.
  unfold monitoreoInfrarrojo, exec, bind; cbn -[Z.eqb].
  destruct (_ =? _)%Z; reflexivity.
Qed.

Lemma monitoreoHall_eq (s : Sys) :
  exec monitoreoHall s =
  if (env_digitalRead env (nDigital s) HALL_PIN =? HIGH)%Z then
    mkSys (inputPassword s) (attemptCount s) 2
          (ULong.wrap (env_millis env (nMillis s)))
          (nKey s) (nHum s) (nTemp s) (nAnalog s) (S (nDigital s))
          (S (nMillis s)) (rev (sensor_events "Hall Activo") ++ out s)
  else set_nDigital (S (nDigital s)) s.
Proof.
  unfold monitoreoHall, exec, bind; cbn -[Z.eqb].
  destruct (_ =? _)%Z; reflexivity.
Qed.

(** X11.  The two handlers the sketch never reaches, taken on their own:
    dispatched in Infrared (resp. Hall), a HIGH level on pin 14 (resp. 15)
    shows "Infrarrojo Activo" (resp. "Hall Activo") with the blue LED and
    the alarm pattern, moves to EventsLight and sets the state timer; any
    other level changes nothing but the count of pin reads.  Neither waits
    for a debounce interval. *)
Theorem digital_sensor_handlers (fuel : nat) (s : Sys) :
  currentState s = Infrared \/ currentState s = Hall ->
  let pin := if (currentState s =? Infrared)%Z then INFRARED_PIN else HALL_PIN in
  let msg := if (currentState s =? Infrared)%Z
             then "Infrarrojo Activo"%string else "Hall Activo"%string in
  let level := env_digitalRead env (nDigital s) pin in
  exists s',
    dispatch fuel s = Some s' /\
    (level = HIGH ->
       currentState s' = EventsLight /\
       stateChangeTime s' = ULong.wrap (env_millis env (nMillis s)) /\
       out s' = (rev (sensor_events msg) ++ out s)%list) /\
    (level <> HIGH -> s' = set_nDigital (S (nDigital s)) s).
Proof.
  intros [Hst|Hst] pin msg level; subst pin msg level;
    unfold dispatch; rewrite Hst; cbn [Infrared Hall Z.eqb Pos.eqb];
    (eexists; split; [reflexivity|]).
  - rewrite monitoreoInfrarrojo_eq. split.
    + intros ->. cbn [Z.eqb Pos.eqb HIGH]. repeat split.
    + intros Hne. apply Z.eqb_neq in Hne. now rewrite Hne.
  - rewrite monitoreoHall_eq. split.
    + intros ->. cbn [Z.eqb Pos.eqb HIGH]. repeat split.
    + intros Hne. apply Z.eqb_neq in Hne. now rewrite Hne.
Qed.

(** *** Failed sensor reads and the two range tests *)

Lemma SFcompare_antisym (x y : float) :
  SFcompare y x = option_map CompOpp (SFcompare x y).
Proof.
  destruct x as [sx|sx| |sx mx ex], y as [sy|sy| |sy my ey]; cbn;
    try reflexivity;
    try (destruct sx; reflexivity); try (destruct sy; reflexivity);
    try (destruct sx, sy; reflexivity).
  destruct sx, sy; cbn; try reflexivity;
    rewrite (Z.compare_antisym ex ey); destruct (ex ?= ey)%Z; cbn;
    try reflexivity; f_equal;
    change (Pos.compare_cont Eq my mx) with (my ?= mx)%positive;
    change (Pos.compare_cont Eq mx my) with (mx ?= my)%positive;
    rewrite (Pos.compare_antisym mx my);
    now destruct (mx ?= my)%positive.
Qed.

Lemma SFcompare_none (x y : float) :
  SFcompare x y = None -> x = F32.nan \/ y = F32.nan.
Proof.
  unfold F32.nan.
  destruct x as [sx|sx| |sx mx ex], y as [sy|sy| |sy my ey]; cbn;
    intros H; try discriminate H; auto.
Qed.

Lemma leb_is_not_ltb (x y : float) :
  x <> F32.nan -> y <> F32.nan -> SFleb y x = negb (SFltb x y).
Proof.
  intros Hx Hy. unfold SFleb, SFltb. rewrite (SFcompare_antisym x y).
  destruct (SFcompare x y) as [[| |]|] eqn:E; cbn; try reflexivity.
  destruct (SFcompare_none x y E); contradiction.
Qed.

(** X14.  For readings that are numbers (not NaN) the test that ends the
    alarm (line 422) is exactly the negation of the test that raises it
    (line 260): no such reading does both, and none does neither. *)
Theorem recovery_is_negated_alarm (t h : float) :
  t <> F32.nan -> h <> F32.nan ->
  in_range t h = negb (out_of_range t h).
Proof.
  intros Ht Hh. unfold in_range, out_of_range, F32.ge, F32.le, F32.gt, F32.lt.
  rewrite (leb_is_not_ltb t f10), (leb_is_not_ltb f40 t),
          (leb_is_not_ltb h f5), (leb_is_not_ltb f60 h);
    try assumption; try discriminate.
  rewrite !negb_orb. reflexivity.
Qed.

Lemma nan_not_out_of_range : out_of_range F32.nan F32.nan = false.
Proof. reflexivity. Qed.

(** X12.  A failed DHT read (NaN for temperature and humidity) raises no
    alarm: dispatched in Environmental the sketch stays in Environmental,
    or, the display interval being over, prints the NaN values and moves
    to EventsLight. *)
Theorem failed_read_raises_no_alarm (fuel : nat) (s : Sys) :
  currentState s = Environmental ->
  env_readTemperature env (nTemp s) = F32.nan ->
  env_readHumidity env (nHum s) = F32.nan ->
  exists s',
    dispatch fuel s = Some s' /\
    currentState s' <> Alarm /\
    (currentState s' = Environmental /\ out s' = out s \/
     currentState s' = EventsLight /\
     out s' = (rev (ambiental_events F32.nan F32.nan) ++ out s)%list).
Proof.
  intros Hst Ht Hh.
  assert (Hin : out_of_range (env_readTemperature env (nTemp s))
                             (env_readHumidity env (nHum s)) = false).
  { rewrite Ht, Hh. exact nan_not_out_of_range. }
  unfold dispatch. rewrite Hst. cbn [Environmental].
  eexists; split; [reflexivity|].
  destruct (Z.lt_ge_cases
              (ULong.sub (ULong.wrap (env_millis env (nMillis s))) (stateChangeTime s))
              4000) as [He|Hd].
  - rewrite monitoreoAmbiental_early by assumption.
    cbn [currentState out]. rewrite Hst.
    split; [discriminate | left; split; reflexivity].
  - rewrite monitoreoAmbiental_due by assumption.
    cbn [currentState out]. rewrite Ht, Hh.
    split; [discriminate | right; split; reflexivity].
Qed.

Lemma in_range_nan (t h : float) :
  t = F32.nan \/ h = F32.nan -> in_range t h = false.
Proof.
  intros [-> | ->]; unfold in_range; [reflexivity|].
  destruct (F32.ge t f10), (F32.le t f40); reflexivity.
Qed.

(** X13.  In Alarm, if from now on every pair of readings has a NaN in it
    (a sensor that no longer answers), alarma never returns: the dispatch
    is still in its loop after any number of iterations. *)
Theorem failed_sensor_never_recovers (s : Sys) :
  currentState s = Alarm ->
  (forall k, env_readTemperature env (nTemp s + k) = F32.nan \/
             env_readHumidity env (nHum s + k) = F32.nan) ->
  forall fuel, dispatch fuel s = None.
Proof.
  intros Hst Hnan fuel.
  destruct (dispatch fuel s) as [s'|] eqn:Hd; [|reflexivity].
  unfold dispatch in Hd. rewrite Hst in Hd. cbn [Alarm] in Hd.
  unfold alarma in Hd. apply alarma_loop_exit in Hd.
  destruct Hd as (k & _ & Hok & _).
  unfold recovered in Hok. cbn [nTemp nHum exec alarma_prologue] in Hok.
  change (nTemp (exec alarma_prologue s)) with (nTemp s) in Hok.
  change (nHum (exec alarma_prologue s)) with (nHum s) in Hok.
  rewrite in_range_nan in Hok by apply Hnan. discriminate Hok.
Qed.

(** *** The debounce and the roll-over of millis() *)

Lemma elapsed_across_rollover (t0 d : Z) :
  0 <= d < ULong.modulus ->
  ULong.sub (ULong.wrap (t0 + d)) (ULong.wrap t0) = d.
Proof.
  intros Hd. unfold ULong.sub, ULong.wrap.
  rewrite <- Zminus_mod. replace (t0 + d - t0) with d by lia.
  apply Z.mod_small. exact Hd.
Qed.

(** X15.  The debounce test works on the unsigned difference, so it
    survives the roll-over of [millis()]: if the state timer was taken at
    tick count [t0] and [millis()] is now at tick count [t0 + d], both
    seen modulo 2^32, the EventsLight handler acts exactly when
    [d >= 3000]. *)
Theorem debounce_survives_rollover (fuel : nat) (s : Sys) (t0 d : Z) :
  currentState s = EventsLight ->
  stateChangeTime s = ULong.wrap t0 ->
  env_millis env (nMillis s) = t0 + d ->
  0 <= d < ULong.modulus ->
  exists s',
    dispatch fuel s = Some s' /\
    (3000 <= d ->
       (currentState s' = Alert \/ currentState s' = Environmental) /\
       stateChangeTime s' = ULong.wrap (env_millis env (S (nMillis s)))) /\
    (d < 3000 ->
       currentState s' = EventsLight /\ stateChangeTime s' = ULong.wrap t0 /\
       out s' = out s).
Proof.
  intros Hst Ht Hm Hd.
  assert (He : ULong.sub (ULong.wrap (env_millis env (nMillis s)))
                         (stateChangeTime s) = d).
  { rewrite Ht, Hm. now apply elapsed_across_rollover. }
  unfold dispatch. rewrite Hst. cbn [EventsLight].
  eexists; split; [reflexivity|]. split.
  - intros Hdue. rewrite monitorEventos_due by (rewrite He; exact Hdue).
    cbn [currentState stateChangeTime]. split; [|reflexivity].
    destruct (_ || _); [now left | now right].
  - intros Hearly. rewrite monitorEventos_early by (rewrite He; exact Hearly).
    cbn [currentState stateChangeTime out]. repeat split; assumption.
Qed.

(** *** What a dispatch can and cannot change *)

Lemma dispatch_idle (fuel : nat) (s : Sys) :
  currentState s < 1 \/ 6 < currentState s -> dispatch fuel s = Some s.
Proof.
  intros H. unfold dispatch.
  destruct (currentState s) as [|p|p]; try reflexivity.
  destruct p as [[[p|p|]|[p|p|]|]|[[p|p|]|[p|p|]|]|]; try reflexivity; lia.
Qed.

Lemma wrap_range (z : Z) : 0 <= ULong.wrap z < ULong.modulus.
Proof. unfold ULong.wrap, ULong.modulus. apply Z.mod_pos_bound. lia. Qed.

(** what one dispatch may do to the globals *)
Definition dispatched (s s' : Sys) : Prop :=
  inputPassword s' = inputPassword s /\
  attemptCount s' = attemptCount s /\
  nKey s' = nKey s /\
  (stateChangeTime s' = stateChangeTime s \/
   exists z, stateChangeTime s' = ULong.wrap z) /\
  (currentState s' = currentState s \/
   currentState s' = Environmental \/ currentState s' = EventsLight \/
   currentState s' = Alert \/ currentState s' = Alarm).

Ltac dispatched_done Hst :=
  unfold dispatched;
  cbn [inputPassword attemptCount nKey stateChangeTime currentState
       set_nDigital];
  repeat split;
  first [ reflexivity
        | left; first [reflexivity | exact Hst]
        | right; eexists; reflexivity
        | right; left; reflexivity
        | right; right; left; reflexivity
        | right; right; right; left; reflexivity
        | right; right; right; right; reflexivity ].

Lemma dispatch_dispatched (fuel : nat) (s s' : Sys) :
  dispatch fuel s = Some s' -> dispatched s s'.
Proof.
  intros H.
  assert (C : currentState s = 1 \/ currentState s = 2 \/ currentState s = 3 \/
              currentState s = 4 \/ currentState s = 5 \/ currentState s = 6 \/
              (currentState s < 1 \/ 6 < currentState s)) by lia.
  destruct C as [E|[E|[E|[E|[E|[E|E]]]]]].
  - unfold dispatch in H. rewrite E in H. injection H as <-.
    destruct (out_of_range (env_readTemperature env (nTemp s))
                           (env_readHumidity env (nHum s))) eqn:Hr.
    + rewrite monitoreoAmbiental_alarm by exact Hr. dispatched_done E.
    + destruct (Z.lt_ge_cases
                  (ULong.sub (ULong.wrap (env_millis env (nMillis s)))
                             (stateChangeTime s)) 4000).
      * rewrite monitoreoAmbiental_early by assumption. dispatched_done E.
      * rewrite monitoreoAmbiental_due by assumption. dispatched_done E.
  - unfold dispatch in H. rewrite E in H. injection H as <-.
    destruct (Z.lt_ge_cases
                (ULong.sub (ULong.wrap (env_millis env (nMillis s)))
                           (stateChangeTime s)) 3000).
    + rewrite monitorEventos_early by assumption. dispatched_done E.
    + rewrite monitorEventos_due by assumption.
      destruct (_ || _); dispatched_done E.
  - unfold dispatch in H. rewrite E in H. injection H as <-.
    destruct (Z.lt_ge_cases
                (ULong.sub (ULong.wrap (env_millis env (nMillis s)))
                           (stateChangeTime s)) 3000).
    + rewrite alerta_early by assumption. dispatched_done E.
    + rewrite alerta_due by assumption. dispatched_done E.
  - unfold dispatch in H. rewrite E in H. unfold alarma in H.
    apply alarma_loop_exit in H. destruct H as (k & _ & _ & _ & ->).
    unfold dispatched.
    split; [reflexivity|]. split; [reflexivity|]. split; [reflexivity|].
    split; [right; eexists; reflexivity | right; left; reflexivity].
  - unfold dispatch in H. rewrite E in H. injection H as <-.
    rewrite monitoreoInfrarrojo_eq. destruct (_ =? _)%Z; dispatched_done E.
  - unfold dispatch in H. rewrite E in H. injection H as <-.
    rewrite monitoreoHall_eq. destruct (_ =? _)%Z; dispatched_done E.
  - rewrite dispatch_idle in H by exact E. injection H as <-.
    dispatched_done E.
Qed.

(** X16.  No state handler touches the access session or the keypad:
    whenever a dispatch returns, the candidate PIN, the attempt counter and
    the number of keys read are what they were -- also after the blocking
    loop of alarma, during which no key is ever polled. *)
Theorem dispatch_leaves_gate_alone (fuel : nat) (s s' : Sys) :
  dispatch fuel s = Some s' ->
  inputPassword s' = inputPassword s /\
  attemptCount s' = attemptCount s /\
  nKey s' = nKey s.
Proof.
  intros H. destruct (dispatch_dispatched fuel s s' H) as (A & B & C & _).
  repeat split; assumption.
Qed.

Lemma onKey_timer (k : ascii) (s : Sys) :
  stateChangeTime (exec (onKey k) s) = stateChangeTime s \/
  exists z, stateChangeTime (exec (onKey k) s) = ULong.wrap z.
Proof.
  destruct (Ascii.eqb_spec k "#") as [->|Hk].
  - change (onKey "#") with onSubmit.
    destruct (pin_ok (inputPassword s)) eqn:Hok.
    + rewrite onSubmit_ok by exact Hok. right. eexists. reflexivity.
    + destruct (Z.lt_ge_cases (Int16.wrap (attemptCount s + 1)) MAX_ATTEMPTS).
      * rewrite onSubmit_fail by assumption. now left.
      * rewrite onSubmit_lockout by assumption. now left.
  - left. apply (onKey_same_but_pin k s Hk).
Qed.

(** X4.  The invariants of the data model hold in every reachable state:
    the attempt counter is 0, 1 or 2 (so [attemptCount++] never overflows
    and a count of MAX_ATTEMPTS is never left standing), the candidate PIN
    has at most four characters, and the state timer is an unsigned 32-bit
    value. *)
Theorem session_and_timer_invariant (s : Sys) :
  reachable s ->
  0 <= attemptCount s < MAX_ATTEMPTS /\
  (String.length (inputPassword s) <= 4)%nat /\
  0 <= stateChangeTime s < ULong.modulus.
Proof.
  intros Hr. destruct (reachable_gate_ok s Hr) as [Ha Hl].
  split; [exact Ha|]. split; [exact Hl|].
  clear Ha Hl. induction Hr as [|s Hr IH|fuel s s' Hr IH Hd].
  - cbn. unfold ULong.modulus. lia.
  - rewrite loop_onKey.
    destruct (onKey_timer (env_getKey env (nKey s)) (set_nKey (S (nKey s)) s))
      as [E|[z E]]; rewrite E; [exact IH | apply wrap_range].
  - destruct (dispatch_dispatched fuel s s' Hd) as (_ & _ & _ & [E|[z E]] & _);
      rewrite E; [exact IH | apply wrap_range].
Qed.

(** X5.  There is no way back to Locked: once [currentState] is not
    Locked, it is not Locked after any number of loop bodies and
    dispatches, whatever keys are pressed -- three wrong PINs and the
    lockout sequence included. *)
Theorem never_locked_again (s s' : Sys) :
  evolves s s' ->
  currentState s <> Locked ->
  currentState s' <> Locked.
Proof.
  intros Hev Hs. induction Hev as [|s' Hev IH|fuel s' s'' Hev IH Hd].
  - exact Hs.
  - rewrite loop_onKey.
    destruct (onKey_state (env_getKey env (nKey s')) (set_nKey (S (nKey s')) s'))
      as [E|E]; rewrite E; [exact IH | discriminate].
  - destruct (dispatch_dispatched fuel s' s'' Hd)
      as (_ & _ & _ & _ & [E|[E|[E|[E|E]]]]);
      rewrite E; [exact IH | discriminate..].
Qed.

(** X6.  The keypad handler never looks at [currentState]: it does in a
    monitoring state exactly what it does while Locked.  Running it with
    another value in [currentState] gives the same result with that value
    still in place -- unless it unlocks ('#' on the secret), which
    overwrites the state with Environmental either way. *)
Theorem keypad_ignores_state (c : Z) (s : Sys) :
  exec loop (set_currentState c s) =
  if (env_getKey env (nKey s) =? "#")%char && pin_ok (inputPassword s)
  then exec loop s
  else set_currentState c (exec loop s).
Proof.
  rewrite !loop_onKey. cbn [nKey set_currentState].
  set (k := env_getKey env (nKey s)).
  destruct (Ascii.eqb_spec k "#") as [->|Hk]; cbn [andb].
  - change (onKey "#") with onSubmit.
    destruct (pin_ok (inputPassword s)) eqn:Hok.
    + rewrite !onSubmit_ok by exact Hok. reflexivity.
    + destruct (Z.lt_ge_cases (Int16.wrap (attemptCount s + 1)) MAX_ATTEMPTS).
      * rewrite !onSubmit_fail by assumption. reflexivity.
      * rewrite !onSubmit_lockout by assumption. reflexivity.
  - unfold onKey.
    destruct (Ascii.eqb_spec k NO_KEY); [reflexivity|].
    destruct (Ascii.eqb_spec k "#"); [contradiction|].
    destruct (Ascii.eqb_spec k "*"); [reflexivity|].
    destruct (Nat.lt_ge_cases (String.length (inputPassword s)) 4) as [Hl|Hl].
    + rewrite !onDigit_room by exact Hl. reflexivity.
    + rewrite !onDigit_full by exact Hl. reflexivity.
Qed.

Lemma onKey_no_unlock (k : ascii) (s : Sys) :
  k <> "#"%char \/ inputPassword s <> CORRECT_PASSWORD ->
  let s' := exec (onKey k) s in
  currentState s' = currentState s /\
  stateChangeTime s' = stateChangeTime s /\
  nHum s' = nHum s /\ nTemp s' = nTemp s /\ nAnalog s' = nAnalog s /\
  nDigital s' = nDigital s /\ nMillis s' = nMillis s.
Proof.
  intros H s'. subst s'.
  destruct (Ascii.eqb_spec k "#") as [->|Hk].
  - destruct H as [H|H]; [contradiction|]. apply pin_ok_false in H.
    change (onKey "#") with onSubmit.
    destruct (Z.lt_ge_cases (Int16.wrap (attemptCount s + 1)) MAX_ATTEMPTS).
    + rewrite onSubmit_fail by assumption. repeat split.
    + rewrite onSubmit_lockout by assumption. repeat split.
  - destruct (onKey_same_but_pin k s Hk) as (_ & A & B & _ & C & D & E & F & G).
    repeat split; assumption.
Qed.

(** X7.  While Locked the monitoring machine is at rest: a cycle whose key
    does not unlock (no key, any key but '#', or '#' on a wrong PIN) is
    just the keypad handler -- the dispatch does nothing, the state stays
    Locked, no sensor and no clock is read, and the state timer is not
    touched. *)
Theorem locked_cycle_polls_nothing (fuel : nat) (s : Sys) :
  currentState s = Locked ->
  env_getKey env (nKey s) <> "#"%char \/ inputPassword s <> CORRECT_PASSWORD ->
  let s' := exec loop s in
  tick fuel s = Some s' /\
  currentState s' = Locked /\
  stateChangeTime s' = stateChangeTime s /\
  nHum s' = nHum s /\ nTemp s' = nTemp s /\ nAnalog s' = nAnalog s /\
  nDigital s' = nDigital s /\ nMillis s' = nMillis s.
Proof.
  intros Hst Hk s'. subst s'.
  pose proof (onKey_no_unlock (env_getKey env (nKey s))
                (set_nKey (S (nKey s)) s) Hk) as H.
  cbv zeta in H. rewrite <- loop_onKey in H.
  cbn [currentState stateChangeTime nHum nTemp nAnalog nDigital nMillis
       set_nKey] in H.
  destruct H as (A & B & C & D & E & F & G).
  split.
  - unfold tick. apply dispatch_idle. rewrite A, Hst. unfold Locked. lia.
  - rewrite A. repeat split; assumption.
Qed.

(** X18.  The cycle that unlocks polls the DHT sensor at once: when '#'
    arrives on the secret and the first reading is out of range, the same
    cycle ends in Alarm, right after the welcome sequence, with the state
    timer at the second [millis()] of the cycle. *)
Theorem unlocking_cycle_polls_dht (fuel : nat) (s : Sys) :
  env_getKey env (nKey s) = "#"%char ->
  inputPassword s = CORRECT_PASSWORD ->
  out_of_range (env_readTemperature env (nTemp s))
               (env_readHumidity env (nHum s)) = true ->
  exists s',
    tick fuel s = Some s' /\
    currentState s' = Alarm /\
    stateChangeTime s' = ULong.wrap (env_millis env (S (nMillis s))) /\
    out s' = (rev welcome_events ++ out s)%list.
Proof.
  intros Hk Hpw Hr. unfold tick.
  rewrite loop_onKey, Hk. change (onKey "#") with onSubmit.
  rewrite onSubmit_ok by (apply pin_ok_true; exact Hpw).
  unfold dispatch. cbn [currentState inputPassword attemptCount set_nKey
                        nMillis out stateChangeTime nKey nHum nTemp nAnalog
                        nDigital].
  rewrite monitoreoAmbiental_alarm by exact Hr.
  eexists; split; [reflexivity|]. repeat split.
Qed.

(** *** Light out of range *)

Lemma bad_light_step (fuel : nat) (s : Sys) :
  light_always_bad ->
  currentState s = EventsLight \/ currentState s = Alert ->
  exists s',
    dispatch fuel s = Some s' /\
    (currentState s' = EventsLight \/ currentState s' = Alert) /\
    nTemp s' = nTemp s /\ nHum s' = nHum s.
Proof.
  intros Hbad Hst. unfold dispatch.
  destruct (Z.lt_ge_cases
              (ULong.sub (ULong.wrap (env_millis env (nMillis s)))
                         (stateChangeTime s)) 3000) as [He|Hd];
    destruct Hst as [Hst|Hst]; rewrite Hst; cbn [EventsLight Alert];
    (eexists; split; [reflexivity|]).
  - rewrite monitorEventos_early by exact He.
    cbn [currentState nTemp nHum]. rewrite Hst. repeat split. now left.
  - rewrite alerta_early by exact He.
    cbn [currentState nTemp nHum]. rewrite Hst. repeat split. now right.
  - rewrite monitorEventos_due by exact Hd.
    cbn [currentState nTemp nHum].
    rewrite (Hbad (nAnalog s)). repeat split. now right.
  - rewrite alerta_due by exact Hd.
    cbn [currentState nTemp nHum]. repeat split. now left.
Qed.

(** X17.  While the light stays out of range the sketch is caught between
    EventsLight and Alert: starting in either, any number of dispatches
    leaves it in one of the two, and the DHT sensor is not read once, so
    temperature and humidity go unchecked for as long as the light
    condition lasts. *)
Theorem bad_light_starves_dht (fuels : list nat) (s : Sys) :
  light_always_bad ->
  currentState s = EventsLight \/ currentState s = Alert ->
  exists s',
    dispatches fuels s = Some s' /\
    (currentState s' = EventsLight \/ currentState s' = Alert) /\
    nTemp s' = nTemp s /\ nHum s' = nHum s.
Proof.
  intros Hbad. revert s.
  induction fuels as [|fuel fuels IH]; intros s Hst; cbn [dispatches].
  - exists s. repeat split. exact Hst.
  - destruct (bad_light_step fuel s Hbad Hst) as (s1 & Hd & Hst1 & Ht & Hh).
    rewrite Hd. destruct (IH s1 Hst1) as (s' & Hds & Hst' & Ht' & Hh').
    exists s'. repeat split; [exact Hds | exact Hst' | congruence | congruence].
Qed.

(** *** The photoresistor formula at the ends of the ADC range *)

Lemma adc_samples_checked : forallb resistance_check adc_samples = true.
Proof. vm_compute. reflexivity. Qed.

Lemma resistance_checked (a : Z) :
  0 <= a <= 1023 -> resistance_check a = true.
Proof.
  intros Ha. pose proof adc_samples_checked as H.
  rewrite forallb_forall in H. apply H.
  unfold adc_samples. apply in_map_iff.
  exists (Z.to_nat a). split; [lia|]. apply in_seq. lia.
Qed.

(** X19.  The lux of a sample is [pow(lux_numerator / resistance, 1/GAMMA)]
    with the resistance computed from the sample alone.  For every sample
    a 10-bit ADC can deliver the divisor [1 - voltage/5] stays positive:
    the resistance is a finite positive float for samples 1 to 1023.  For
    sample 0 it is +0, and the quotient handed to [pow] is then a division
    by zero: an infinity or NaN, never a finite number. *)
Theorem resistance_over_adc_range (a : Z) :
  0 <= a <= 1023 ->
  lux_of a =
    pow cal (F32.div lux_numerator (resistance_of a)) (F32.div f1 (GAMMA cal)) /\
  (0 < a -> is_finite_positive (resistance_of a) = true) /\
  (a = 0 -> resistance_of a = S754_zero false /\
            match F32.div lux_numerator (resistance_of a) with
            | S754_infinity _ | S754_nan => True
            | _ => False
            end).
Proof.
  intros Ha. split; [reflexivity|].
  pose proof (resistance_checked a Ha) as Hc. unfold resistance_check in Hc.
  split.
  - intros Hpos. destruct (Z.eqb_spec a 0) as [->|_]; [lia | exact Hc].
  - intros ->. split; [reflexivity|].
    change (resistance_of 0) with (S754_zero false).
    unfold F32.div. destruct lux_numerator; exact I.
Qed.

End Sketch.

(** ** The sketch on concrete inputs *)

(** *** Float comparisons at the thresholds *)

Example thresholds_in_range :
  in_range (F32.of_Z 25) (F32.of_Z 30) = true /\
  in_range f10 f5 = true /\ in_range f40 f60 = true /\
  out_of_range (F32.of_Z 25) (F32.of_Z 30) = false /\
  out_of_range f10 f5 = false /\ out_of_range f40 f60 = false.
Proof. repeat split. Qed.

Example thresholds_out_of_range :
  out_of_range (F32.of_Z 45) (F32.of_Z 30) = true /\
  out_of_range (F32.of_Z 9) (F32.of_Z 30) = true /\
  out_of_range (F32.of_Z 25) (F32.of_Z 4) = true /\
  out_of_range (F32.of_Z 25) (F32.of_Z 61) = true /\
  out_of_range (F32.of_Z (-3)) (F32.of_Z 30) = true /\
  in_range (F32.of_Z 45) (F32.of_Z 30) = false.
Proof. repeat split. Qed.

(** a failed sensor read (NaN) is neither out of range nor in range: it
    raises no alarm in Environmental and ends no alarm in Alarm *)
Example nan_is_neither :
  out_of_range F32.nan (F32.of_Z 30) = false /\
  out_of_range (F32.of_Z 25) F32.nan = false /\
  in_range F32.nan (F32.of_Z 30) = false /\
  in_range (F32.of_Z 25) F32.nan = false.
Proof. repeat split. Qed.

(** on whole readings the float tests are the integer tests *)
Lemma whole_readings_all : forallb thresholds_agree whole_readings = true.
Proof. vm_compute. reflexivity. Qed.

Lemma whole_reading_agrees (z : Z) :
  -100 <= z <= 200 -> thresholds_agree z = true.
Proof.
  intros Hz.
  pose proof whole_readings_all as H. rewrite forallb_forall in H.
  apply H. unfold whole_readings. apply in_map_iff.
  exists (Z.to_nat (z + 100)). split; [lia|].
  apply in_seq. lia.
Qed.

Lemma whole_readings_thresholds (t h : Z) :
  -100 <= t <= 200 -> -100 <= h <= 200 ->
  out_of_range (F32.of_Z t) (F32.of_Z h) =
    ((t <? 10)%Z || (t >? 40)%Z || (h <? 5)%Z || (h >? 60)%Z) /\
  in_range (F32.of_Z t) (F32.of_Z h) =
    ((t >=? 10)%Z && (t <=? 40)%Z && (h >=? 5)%Z && (h <=? 60)%Z).
Proof.
  intros Ht Hh.
  pose proof (whole_reading_agrees t Ht) as At.
  pose proof (whole_reading_agrees h Hh) as Ah.
  unfold thresholds_agree in At, Ah.
  rewrite !andb_true_iff in At, Ah.
  repeat match goal with H : _ /\ _ |- _ => destruct H end.
  repeat match goal with H : Bool.eqb _ _ = true |- _ => apply Bool.eqb_prop in H end.
  unfold out_of_range, in_range. split; congruence.
Qed.

(** *** Claim C1 *)

(** Claim C1 as stated fails: after "0690#" the sketch is in Environmental
    with the state timer set, but the candidate PIN is still "0690". *)
Lemma submit_leaves_candidate_pin :
  let e := script ["0";"6";"9";"0";"#"]%char [] [] [] [1234] in
  let s := exec (repeat_n 4 (loop e)) (exec setup initial) in
  (env_getKey e (nKey s) = "#"%char /\ currentState s = Locked /\
   String.length (inputPassword s) = 4%nat /\
   inputPassword s = CORRECT_PASSWORD) /\
  ~ (currentState (exec (loop e) s) = Environmental /\
     inputPassword (exec (loop e) s) = ""%string /\
     stateChangeTime (exec (loop e) s) = ULong.wrap (env_millis e (nMillis s))).
Proof.
  cbv zeta. split; [repeat split|].
  intros (_ & H & _). vm_compute in H. discriminate H.
Qed.

Lemma submit_correct_pin_unlocks_witness :
  let e := script ["0";"6";"9";"0";"#"]%char [] [] [] [1234] in
  let s := exec (repeat_n 4 (loop e)) (exec setup initial) in
  let s' := exec (loop e) s in
  currentState s' = Environmental /\
  stateChangeTime s' = 1234 /\
  inputPassword s' = "0690"%string /\
  attemptCount s' = 0 /\
  out s' = (rev welcome_events ++ out s)%list.
Proof.
  intros e s.
  exact (submit_correct_pin_unlocks e s eq_refl eq_refl eq_refl eq_refl).
Defined.

(** *** Claim C2 *)

(** Claim C2 as stated fails: 'A' is neither a digit nor '#' nor '*', yet
    pressed on the fresh prompt it becomes the first character of the
    candidate PIN and a '*' is drawn on the second line. *)
Lemma letter_key_is_not_ignored :
  let e := script ["A"]%char [] [] [] [] in
  let s := exec setup initial in
  (env_getKey e (nKey s) = "A"%char /\ is_digit "A" = false /\
   "A"%char <> "#"%char /\ "A"%char <> "*"%char /\ currentState s = Locked) /\
  inputPassword (exec (loop e) s) = "A"%string /\
  ~ (inputPassword (exec (loop e) s) = inputPassword s /\
     attemptCount (exec (loop e) s) = attemptCount s /\
     currentState (exec (loop e) s) = currentState s /\
     filter is_lcd (out (exec (loop e) s)) = filter is_lcd (out s)).
Proof.
  cbv zeta. split; [repeat split; discriminate|].
  split; [reflexivity|].
  intros (H & _). vm_compute in H. discriminate H.
Qed.

Lemma other_key_is_entered_witness :
  let e := script ["A"]%char [] [] [] [] in
  let s := exec setup initial in
  let s' := exec (loop e) s in
  attemptCount s' = attemptCount s /\
  currentState s' = Locked /\
  ((String.length (inputPassword s) < 4)%nat ->
     inputPassword s' = (inputPassword s ++ "A")%string /\
     out s' =
       (LcdPrint (getAsterisks (Z.of_nat (S (String.length (inputPassword s)))))
          :: LcdSetCursor 0 1 :: out s)%list) /\
  ((4 <= String.length (inputPassword s))%nat ->
     inputPassword s' = inputPassword s /\ out s' = out s).
Proof.
  intros e s.
  apply (other_key_is_entered e s "A"%char); [reflexivity | | | | reflexivity];
    discriminate.
Defined.

(** *** Claims C6, C10, C5, C9 *)

Lemma submit_wrong_pin_counts_witness :
  let e := script ["1";"2";"3";"4";"#"]%char [] [] [] [] in
  let s := exec (repeat_n 4 (loop e)) (exec setup initial) in
  let s' := exec (loop e) s in
  inputPassword s = "1234"%string /\
  inputPassword s' = ""%string /\
  currentState s' = Locked /\
  attemptCount s' = 1.
Proof.
  intros e s s'.
  destruct (submit_wrong_pin_counts e s) as (Hp & Hs & _ & Hn);
    [reflexivity | reflexivity | reflexivity | discriminate
    | vm_compute; split; [discriminate | reflexivity] |].
  destruct Hn as [Hn _]; [reflexivity|].
  repeat split; assumption.
Defined.

Lemma submit_short_pin_counts_witness :
  let e := script ["#"; "#"; "0"; "6"; "#"]%char [] [] [] [] in
  let s := exec (repeat_n 4 (loop e)) (exec setup initial) in
  let s' := exec (loop e) s in
  (inputPassword s = "06"%string /\ attemptCount s = 2) /\
  inputPassword s' = ""%string /\
  currentState s' = Locked /\
  attemptCount s' = 0 /\
  out s' = (rev (error_events 3 ++ lockout_events) ++ out s)%list.
Proof.
  intros e s s'.
  assert (Hk : env_getKey e (nKey s) = "#"%char) by (vm_compute; reflexivity).
  assert (Hst : currentState s = Locked) by (vm_compute; reflexivity).
  assert (Hpw : inputPassword s = "06"%string) by (vm_compute; reflexivity).
  assert (Hlen : (String.length (inputPassword s) < 4)%nat) by (vm_compute; lia).
  assert (Hn : attemptCount s = 2) by (vm_compute; reflexivity).
  assert (Hr : Int16.min_signed <= attemptCount s < Int16.max_signed).
  { rewrite Hn. vm_compute. split; [discriminate | reflexivity]. }
  pose proof (submit_short_pin_counts e s Hk Hst Hlen Hr) as H.
  cbv zeta in H.
  destruct H as (Hp & Hs & _ & Hlock).
  assert (Hge : MAX_ATTEMPTS <= attemptCount s + 1).
  { rewrite Hn. discriminate. }
  destruct (Hlock Hge) as [Ha Ho].
  rewrite Hn in Ho.
  exact (conj (conj Hpw Hn) (conj Hp (conj Hs (conj Ha Ho)))).
Defined.

Lemma three_failures_lock_out_witness :
  let e := script [] [] [] [] [] in
  let s3 :=
    press e ["1";"2";"3";"4";"#"; "#"; "0";"6";"9";"A";"#"]%char
          (exec setup initial) in
  attemptCount s3 = 0 /\ currentState s3 = Locked /\
  inputPassword s3 = ""%string.
Proof.
  intros e s3.
  assert (K1 : ~ In "#"%char ["1";"2";"3";"4"]%char)
    by (cbn; intuition discriminate).
  assert (K2 : ~ In "#"%char []) by (cbn; tauto).
  assert (K3 : ~ In "#"%char ["0";"6";"9";"A"]%char)
    by (cbn; intuition discriminate).
  pose proof (three_failures_lock_out e (exec setup initial)
                ["1";"2";"3";"4"]%char [] ["0";"6";"9";"A"]%char
                eq_refl eq_refl K1 K2 K3) as H.
  cbv zeta in H.
  destruct H as (_ & _ & Ha & Hs & Hp & _);
    [vm_compute; discriminate | vm_compute; discriminate
    | vm_compute; discriminate |].
  repeat split; assumption.
Defined.

Lemma digits_never_exceed_four_witness :
  let e := script [] [] [] [] [] in
  let s := press e ["0";"6";"9";"0"]%char (exec setup initial) in
  inputPassword s = "0690"%string /\
  (String.length (inputPassword (press e ["1";"2"]%char s)) <= 4)%nat /\
  press e ["1";"2"]%char s = s.
Proof.
  intros e s. split; [reflexivity|].
  destruct (digits_never_exceed_four e s ["1";"2"]%char) as [Hl He];
    [reflexivity | repeat constructor | vm_compute; lia |].
  split; [exact Hl | apply He; reflexivity].
Defined.

(** *** Claims C7, C8, C4, C3 *)

(** unlocked at t = 1000 ms, then a reading of 45 C / 30 % *)
Lemma environmental_out_of_range_alarms_witness :
  let e := script ["0";"6";"9";"0";"#"]%char
                  [F32.of_Z 45] [F32.of_Z 30] [] [1000; 1001] in
  let s := exec (repeat_n 5 (loop e)) (exec setup initial) in
  currentState s = Environmental /\
  exists s',
    dispatch e cal_demo 0 s = Some s' /\
    currentState s' = Alarm /\
    stateChangeTime s' = ULong.wrap (env_millis e (nMillis s)) /\
    out s' = out s.
Proof.
  intros e s. split; [reflexivity|].
  apply (environmental_out_of_range_alarms e cal_demo 0 s); [reflexivity|].
  right; left. reflexivity.
Defined.

(** unlocked at t = 1000 ms, a reading of 25 C / 30 % shown at
    t = 6000 ms, then the light handler polled at t = 6500 ms (too early)
    and, one dispatch later, at t = 9100 ms *)
Lemma events_light_transitions_witness :
  let e := script ["0";"6";"9";"0";"#"]%char
                  [F32.of_Z 25] [F32.of_Z 30] [512; 512]
                  [1000; 6000; 6001; 6500; 9100; 9101] in
  let s := exec (monitoreoAmbiental e)
                (exec (repeat_n 5 (loop e)) (exec setup initial)) in
  currentState s = EventsLight /\
  stateChangeTime s = 6001 /\
  exists s',
    dispatch e cal_demo 0 s = Some s' /\
    currentState s' = EventsLight /\
    stateChangeTime s' = stateChangeTime s /\
    out s' = out s.
Proof.
  intros e s. split; [reflexivity|]. split; [reflexivity|].
  destruct (events_light_transitions e cal_demo 0 s) as (s' & Hd & _ & He);
    [reflexivity|].
  exists s'. split; [exact Hd|]. apply He. vm_compute. reflexivity.
Defined.

(** the same run polled only at t = 9100 ms: a raw sample of 512 gives 10
    lux under [cal_demo] and leads to Alert, a raw sample of 25 gives about
    400 lux and leads back to Environmental *)
Example events_light_after_debounce :
  let run raw :=
    let e := script ["0";"6";"9";"0";"#"]%char
                    [F32.of_Z 25] [F32.of_Z 30] [raw]
                    [1000; 6000; 6001; 9100; 9101] in
    dispatch e cal_demo 0
      (exec (monitoreoAmbiental e)
            (exec (repeat_n 5 (loop e)) (exec setup initial))) in
  option_map currentState (run 512) = Some Alert /\
  option_map stateChangeTime (run 512) = Some 9101 /\
  option_map currentState (run 25) = Some Environmental /\
  F32.lt (lux_of cal_demo 512) f200 = true /\
  F32.gt (lux_of cal_demo 25) f200 = true /\
  F32.lt (lux_of cal_demo 25) f700 = true.
Proof. vm_compute. repeat split. Qed.

(** Alarm entered on 45 C; the next reading, 5 C, keeps the loop spinning
    and the one after, 25 C / 30 %, ends it *)
Lemma alarma_returns_iff_recovery_witness :
  let e := script ["0";"6";"9";"0";"#"]%char
                  [F32.of_Z 45; F32.of_Z 5; F32.of_Z 25]
                  [F32.of_Z 30; F32.of_Z 30; F32.of_Z 30] []
                  [1000; 1001; 7000] in
  let s := exec (monitoreoAmbiental e)
                (exec (repeat_n 5 (loop e)) (exec setup initial)) in
  currentState s = Alarm /\
  dispatch e cal_demo 1 s = None /\
  exists s', dispatch e cal_demo 2 s = Some s' /\
             currentState s' = Environmental /\
             stateChangeTime s' = 7000.
Proof.
  intros e s. split; [reflexivity|]. split; [reflexivity|].
  destruct (alarma_returns_iff_recovery e cal_demo s) as (_ & Hex & Hen);
    [reflexivity|].
  destruct (Hen 1%nat 2%nat) as (s' & Hd); [reflexivity | lia |].
  exists s'. split; [exact Hd|].
  destruct (Hex 2%nat s' Hd) as (k & _ & _ & _ & _ & Hs).
  split; [exact Hs|].
  vm_compute in Hd. injection Hd as <-. reflexivity.
Defined.

Lemma infrared_hall_unreachable_witness :
  let e := script ["0";"6";"9";"0";"#"]%char
                  [F32.of_Z 45] [F32.of_Z 30] [] [1000; 1001] in
  let s := exec (monitoreoAmbiental e)
                (exec (loop e) (exec (loop e) (exec (loop e)
                   (exec (loop e) (exec (loop e) (exec setup initial)))))) in
  currentState s = Alarm /\
  live_state (currentState s) /\
  currentState s <> Infrared /\ currentState s <> Hall.
Proof.
  intros e s. split; [vm_compute; reflexivity|].
  apply (infrared_hall_unreachable e cal_demo s).
  apply (reach_dispatch e cal_demo 0
           (exec (loop e) (exec (loop e) (exec (loop e)
              (exec (loop e) (exec (loop e) (exec setup initial)))))));
    [|vm_compute; reflexivity].
  do 5 apply reach_loop. apply reach_setup.
Defined.

(** ** Further runs on concrete inputs *)

Lemma typing_keeps_first_four_witness :
  let e := script [] [] [] [] [] in
  let s := press e ["1";"A";"7";"D";"5";"9"]%char (exec setup initial) in
  inputPassword s = "1A7D"%string /\
  String.length (inputPassword s) = 4%nat /\
  exists older,
    out s = (LcdPrint (stars 4) :: LcdSetCursor 0 1 :: older)%list.
Proof.
  intros e s.
  assert (Hk : Forall entry_key ["1";"A";"7";"D";"5";"9"]%char).
  { repeat constructor; discriminate. }
  pose proof (typing_keeps_first_four e (exec setup initial)
                ["1";"A";"7";"D";"5";"9"]%char eq_refl Hk) as H.
  destruct H as (Hp & Hl & Ho).
  split; [exact Hp|]. split; [exact Hl|]. apply Ho. discriminate.
Defined.

Lemma only_submit_touches_gate_witness :
  let e := script [] [] [] [] [] in
  let s := press e ["1";"#";"2";"#"]%char (exec setup initial) in
  let s' := press e ["3";"*";"A";"7";"*"]%char s in
  attemptCount s = 2 /\ attemptCount s' = 2 /\
  inputPassword s' = ""%string /\ currentState s' = Locked.
Proof.
  intros e s s'.
  assert (Hin : ~ In "#"%char ["3";"*";"A";"7"]%char)
    by (cbn; intuition discriminate).
  pose proof (only_submit_touches_gate e s ["3";"*";"A";"7"]%char Hin) as H.
  destruct H as (_ & Hp & Ha).
  assert (Hn : attemptCount s = 2) by (vm_compute; reflexivity).
  split; [exact Hn|]. split; [rewrite <- Hn; exact Ha|].
  split; [exact Hp | vm_compute; reflexivity].
Defined.

(** unlocked at t = 1000 ms; 25 C / 30 % polled at t = 2000 ms is too
    early to be shown *)
Lemma environmental_in_range_witness :
  let e := script ["0";"6";"9";"0";"#"]%char
                  [F32.of_Z 25] [F32.of_Z 30] [] [1000; 2000] in
  let s := exec (repeat_n 5 (loop e)) (exec setup initial) in
  currentState s = Environmental /\
  exists s',
    dispatch e cal_demo 0 s = Some s' /\
    currentState s' = Environmental /\
    stateChangeTime s' = stateChangeTime s /\
    out s' = out s.
Proof.
  intros e s.
  assert (Hst : currentState s = Environmental) by (vm_compute; reflexivity).
  assert (Hr : out_of_range (env_readTemperature e (nTemp s))
                            (env_readHumidity e (nHum s)) = false)
    by (vm_compute; reflexivity).
  pose proof (environmental_in_range e cal_demo 0 s Hst Hr) as H.
  cbv zeta in H. destruct H as (s' & Hd & _ & He).
  split; [exact Hst|]. exists s'. split; [exact Hd|].
  apply He. vm_compute. reflexivity.
Defined.

(** a run into Alert: unlocked at 1000 ms, reading shown at 6000 ms, lux
    10 seen at 9100 ms, the alert handled at 12200 ms *)
Lemma alert_returns_to_events_light_witness :
  let e := script ["0";"6";"9";"0";"#"]%char
                  [F32.of_Z 25] [F32.of_Z 30] [512; 512]
                  [1000; 6000; 6001; 9100; 9101; 12200; 12201] in
  let s := exec (monitorEventos e cal_demo)
             (exec (monitoreoAmbiental e)
                (exec (repeat_n 5 (loop e)) (exec setup initial))) in
  currentState s = Alert /\
  exists s',
    dispatch e cal_demo 0 s = Some s' /\
    currentState s' = EventsLight /\
    stateChangeTime s' = 12201.
Proof.
  intros e s.
  assert (Hst : currentState s = Alert) by (vm_compute; reflexivity).
  pose proof (alert_returns_to_events_light e cal_demo 0 s Hst) as H.
  cbv zeta in H. destruct H as (s' & Hd & Hdue & _).
  split; [exact Hst|]. exists s'. split; [exact Hd|].
  destruct Hdue as (Hs & Ht & _); [vm_compute; discriminate|].
  split; [exact Hs|]. rewrite Ht. vm_compute. reflexivity.
Defined.

(** the Infrared handler on a state put there by hand, pin 14 HIGH *)
Lemma digital_sensor_handlers_witness :
  let e := mkEnv (fun _ => "000"%char) (fun _ => F32.nan) (fun _ => F32.nan)
                 (fun _ => 0) (fun _ pin => if pin =? 14 then 1 else 0)%Z
                 (fun _ => 777) in
  let s := set_currentState Infrared (exec setup initial) in
  exists s',
    dispatch e cal_demo 0 s = Some s' /\
    currentState s' = EventsLight /\
    stateChangeTime s' = 777.
Proof.
  intros e s.
  pose proof (digital_sensor_handlers e cal_demo 0 s (or_introl eq_refl)) as H.
  cbv zeta in H. destruct H as (s' & Hd & Hh & _).
  exists s'. split; [exact Hd|].
  destruct Hh as (Hs & Ht & _); [vm_compute; reflexivity|].
  split; [exact Hs | exact Ht].
Defined.

(** unlocked, then the sensor answers NaN *)
Lemma failed_read_raises_no_alarm_witness :
  let e := script ["0";"6";"9";"0";"#"]%char [] [] [] [1000; 2000] in
  let s := exec (repeat_n 5 (loop e)) (exec setup initial) in
  exists s',
    dispatch e cal_demo 0 s = Some s' /\ currentState s' <> Alarm.
Proof.
  intros e s.
  pose proof (failed_read_raises_no_alarm e cal_demo 0 s) as H.
  destruct H as (s' & Hd & Hs & _);
    [vm_compute; reflexivity | vm_compute; reflexivity
    | vm_compute; reflexivity |].
  exists s'. split; [exact Hd | exact Hs].
Defined.

(** Alarm entered on 45 C, after which the sensor answers NaN for ever *)
Lemma failed_sensor_never_recovers_witness :
  let e := script ["0";"6";"9";"0";"#"]%char
                  [F32.of_Z 45] [F32.of_Z 30] [] [1000; 1001] in
  let s := exec (monitoreoAmbiental e)
                (exec (repeat_n 5 (loop e)) (exec setup initial)) in
  currentState s = Alarm /\ dispatch e cal_demo 1000 s = None.
Proof.
  intros e s.
  assert (Hst : currentState s = Alarm) by (vm_compute; reflexivity).
  split; [exact Hst|].
  apply (failed_sensor_never_recovers e cal_demo s Hst).
  intros k. left.
  assert (Hn : nTemp s = 1%nat) by (vm_compute; reflexivity).
  rewrite Hn. destruct k; reflexivity.
Defined.

Lemma recovery_is_negated_alarm_witness :
  in_range (F32.of_Z 25) (F32.of_Z 30)
  = negb (out_of_range (F32.of_Z 25) (F32.of_Z 30)).
Proof.
  apply (recovery_is_negated_alarm (F32.of_Z 25) (F32.of_Z 30)); discriminate.
Defined.


(** a run across the roll-over: unlocked 7000 ms before [millis()] wraps,
    the reading shown 2000 ms before, the state timer taken 1000 ms
    before, and the light handler polled 2500 ms after the wrap, 3500 ms
    after the state timer *)
Lemma debounce_survives_rollover_witness :
  let e := script ["0";"6";"9";"0";"#"]%char
                  [F32.of_Z 25] [F32.of_Z 30] [512]
                  [2 ^ 32 - 7000; 2 ^ 32 - 2000; 2 ^ 32 - 1000;
                   2 ^ 32 + 2500; 2 ^ 32 + 2501] in
  let s := exec (monitoreoAmbiental e)
                (exec (repeat_n 5 (loop e)) (exec setup initial)) in
  currentState s = EventsLight /\
  stateChangeTime s = 2 ^ 32 - 1000 /\
  exists s',
    dispatch e cal_demo 0 s = Some s' /\
    (currentState s' = Alert \/ currentState s' = Environmental) /\
    stateChangeTime s' = 2501.
Proof.
  intros e s.
  assert (Hst : currentState s = EventsLight) by (vm_compute; reflexivity).
  assert (Ht : stateChangeTime s = ULong.wrap (2 ^ 32 - 1000))
    by (vm_compute; reflexivity).
  assert (Hm : env_millis e (nMillis s) = (2 ^ 32 - 1000) + 3500)
    by (vm_compute; reflexivity).
  assert (Hd : 0 <= 3500 < ULong.modulus)
    by (unfold ULong.modulus; lia).
  pose proof (debounce_survives_rollover e cal_demo 0 s _ _ Hst Ht Hm Hd) as H.
  destruct H as (s' & Hdis & Hdue & _).
  split; [exact Hst|]. split; [vm_compute; reflexivity|].
  exists s'. split; [exact Hdis|].
  destruct Hdue as (Hs & Htm); [discriminate|].
  split; [exact Hs|]. rewrite Htm. vm_compute. reflexivity.
Defined.

(** "12" typed and one attempt failed before the unlock; the alarm loop
    then runs over three pairs of readings *)
Lemma dispatch_leaves_gate_alone_witness :
  let e := script ["#";"0";"6";"9";"0";"#"]%char
                  [F32.of_Z 45; F32.of_Z 5; F32.of_Z 25]
                  [F32.of_Z 30; F32.of_Z 30; F32.of_Z 30] []
                  [1000; 1001; 7000] in
  let s := exec (monitoreoAmbiental e)
                (exec (repeat_n 6 (loop e)) (exec setup initial)) in
  currentState s = Alarm /\
  exists s',
    dispatch e cal_demo 5 s = Some s' /\
    inputPassword s' = "0690"%string /\ attemptCount s' = 1 /\
    nKey s' = 6%nat.
Proof.
  intros e s.
  assert (Hst : currentState s = Alarm) by (vm_compute; reflexivity).
  split; [exact Hst|].
  destruct (dispatch e cal_demo 5 s) as [s'|] eqn:Hd;
    [|vm_compute in Hd; discriminate Hd].
  exists s'. split; [reflexivity|].
  destruct (dispatch_leaves_gate_alone e cal_demo 5 s s' Hd) as (Hp & Ha & Hk).
  rewrite Hp, Ha, Hk. vm_compute. repeat split.
Defined.

Lemma session_and_timer_invariant_witness :
  let e := script ["1";"#";"#";"#";"0";"6";"9";"0";"#"]%char
                  [F32.of_Z 45] [F32.of_Z 30] [] [2 ^ 32 + 5; 9] in
  let s := exec (monitoreoAmbiental e)
             (exec (loop e) (exec (loop e) (exec (loop e) (exec (loop e)
               (exec (loop e) (exec (loop e) (exec (loop e) (exec (loop e)
                 (exec (loop e) (exec setup initial)))))))))) in
  currentState s = Alarm /\
  0 <= attemptCount s < MAX_ATTEMPTS /\
  (String.length (inputPassword s) <= 4)%nat /\
  0 <= stateChangeTime s < ULong.modulus.
Proof.
  intros e s. split; [vm_compute; reflexivity|].
  apply (session_and_timer_invariant e cal_demo s).
  apply (reach_dispatch e cal_demo 0
           (exec (loop e) (exec (loop e) (exec (loop e) (exec (loop e)
              (exec (loop e) (exec (loop e) (exec (loop e) (exec (loop e)
                (exec (loop e) (exec setup initial)))))))))));
    [|vm_compute; reflexivity].
  do 9 apply reach_loop. apply reach_setup.
Defined.

(** unlocked, then three '#' on the PIN emptied by hand: the lockout
    sequence runs, and the sketch is still not Locked *)
Lemma never_locked_again_witness :
  let e := script ["0";"6";"9";"0";"#"; "*"; "#"; "#"; "#"]%char
                  [] [] [] [1000] in
  let s := exec (loop e) (exec (loop e) (exec (loop e) (exec (loop e)
             (exec (loop e) (exec setup initial))))) in
  let s' := exec (loop e) (exec (loop e) (exec (loop e) (exec (loop e) s))) in
  currentState s = Environmental /\
  attemptCount (exec (loop e) (exec (loop e) (exec (loop e) s))) = 2 /\
  attemptCount s' = 0 /\
  currentState s' <> Locked.
Proof.
  intros e s s'.
  split; [vm_compute; reflexivity|]. split; [vm_compute; reflexivity|].
  split; [vm_compute; reflexivity|].
  apply (never_locked_again e cal_demo s s').
  - do 4 apply ev_loop. apply ev_here.
  - vm_compute. discriminate.
Defined.

Lemma locked_cycle_polls_nothing_witness :
  let e := script ["0";"6";"9";"1";"#"]%char
                  [F32.of_Z 45] [F32.of_Z 30] [] [1000] in
  let s := exec (repeat_n 4 (loop e)) (exec setup initial) in
  tick e cal_demo 0 s = Some (exec (loop e) s) /\
  currentState (exec (loop e) s) = Locked /\
  nTemp (exec (loop e) s) = 0%nat /\ nMillis (exec (loop e) s) = 0%nat.
Proof.
  intros e s.
  assert (Hst : currentState s = Locked) by (vm_compute; reflexivity).
  assert (Hk : env_getKey e (nKey s) <> "#"%char \/
               inputPassword s <> CORRECT_PASSWORD).
  { right. vm_compute. discriminate. }
  pose proof (locked_cycle_polls_nothing e cal_demo 0 s Hst Hk) as H.
  cbv zeta in H. destruct H as (Ht & Hs & _ & _ & Hn & _ & _ & Hm).
  split; [exact Ht|]. split; [exact Hs|].
  split; [rewrite Hn | rewrite Hm]; vm_compute; reflexivity.
Defined.

Lemma unlocking_cycle_polls_dht_witness :
  let e := script ["0";"6";"9";"0";"#"]%char
                  [F32.of_Z 45] [F32.of_Z 30] [] [1000; 1001] in
  let s := exec (repeat_n 4 (loop e)) (exec setup initial) in
  currentState s = Locked /\
  exists s',
    tick e cal_demo 0 s = Some s' /\
    currentState s' = Alarm /\
    stateChangeTime s' = 1001.
Proof.
  intros e s. split; [vm_compute; reflexivity|].
  assert (Hk : env_getKey e (nKey s) = "#"%char) by (vm_compute; reflexivity).
  assert (Hp : inputPassword s = CORRECT_PASSWORD) by (vm_compute; reflexivity).
  assert (Hr : out_of_range (env_readTemperature e (nTemp s))
                            (env_readHumidity e (nHum s)) = true)
    by (vm_compute; reflexivity).
  destruct (unlocking_cycle_polls_dht e cal_demo 0 s Hk Hp Hr)
    as (s' & Ht & Hs & Htm & _).
  exists s'. split; [exact Ht|]. split; [exact Hs|].
  rewrite Htm. vm_compute. reflexivity.
Defined.

(** an ADC stuck at 512 (10 lux under [cal_demo]) and a clock that
    advances 4000 ms per call *)
Lemma bad_light_starves_dht_witness :
  let e := mkEnv (fun _ => "000"%char) (fun _ => F32.of_Z 30)
                 (fun _ => F32.of_Z 45) (fun _ => 512) (fun _ _ => 0)
                 (fun n => 4000 * Z.of_nat n + 4000) in
  let s := set_currentState EventsLight (exec setup initial) in
  exists s',
    dispatches e cal_demo [0; 0; 0; 0; 0]%nat s = Some s' /\
    (currentState s' = EventsLight \/ currentState s' = Alert) /\
    nTemp s' = 0%nat /\ nHum s' = 0%nat.
Proof.
  intros e s.
  assert (Hbad : light_always_bad e cal_demo).
  { intros n. vm_compute. reflexivity. }
  exact (bad_light_starves_dht e cal_demo [0; 0; 0; 0; 0]%nat s Hbad
           (or_introl eq_refl)).
Defined.

Lemma resistance_over_adc_range_witness :
  is_finite_positive (resistance_of 512) = true /\
  is_finite_positive (resistance_of 1023) = true /\
  resistance_of 0 = S754_zero false.
Proof.
  assert (H512 : 0 <= 512 <= 1023) by lia.
  assert (H1023 : 0 <= 1023 <= 1023) by lia.
  assert (H0 : 0 <= 0 <= 1023) by lia.
  split; [|split].
  - exact (proj1 (proj2 (resistance_over_adc_range cal_demo 512 H512)) eq_refl).
  - exact (proj1 (proj2 (resistance_over_adc_range cal_demo 1023 H1023)) eq_refl).
  - exact (proj1 (proj2 (proj2 (resistance_over_adc_range cal_demo 0 H0)) eq_refl)).
Defined.
